(** * NewEra daily submission bot: the checklist store, the rollover rule,
      the membership view and the interaction dispatcher

    Shallow embedding of [src/index.js] (the slash-command bot, module
    [Basic]) and of [src/unnamed/part_000] (the panel version of the same
    bot, module [Panel]).  Both files share, word for word up to
    formatting, [todayISO]/[today], [saveData], [ensureToday],
    [getGangMembers], [isGangMember] and [summarize]; these are embedded
    once, below.

    Conventions.
    - The module-level object [data] lives in the [data] field of [World];
      every call [ensureToday(data)] / [saveData(data)] of the sources
      passes that very object, so the embedded functions act on the field.
    - [DATA_FILE] is the [file] field.  [fs.writeFileSync] is taken to
      succeed; a file written by [saveData] parses back to the document.
    - [DateTime.now().setZone(TZ).toISODate()] reads the wall clock: the
      [n]-th read of a run returns [clock w n], and [tick] counts the reads.
    - JavaScript [null] / [undefined] / absent property is [None]. *)

From stdpp Require Import base strings list gmap sorting.

#[local] Set Warnings "-clear-no-such-hyp".

Local Open Scope Z_scope.
Local Open Scope nat_scope.
Local Open Scope string_scope.
Local Open Scope list_scope.

(** ** Persisted document *)

Record Doc := mkDoc {
  currentDate : string;
  completed : list string;
  gangRoleId : option string;
  panelMessageId : option string;
  panelChannelId : option string
}.

(** Content of [./data.json]: missing, not parseable by [JSON.parse], or
    the serialisation of a document. *)
Inductive File :=
| NoFile
| Garbage (raw : string)
| Json (d : Doc).

Record World := mkWorld {
  data : Doc;
  file : File;
  clock : nat -> string;
  tick : nat
}.

(** ** Roster as seen through discord.js *)

Record Member := mkMember {
  m_id : string;                  (* member.id *)
  displayName : string;           (* member.displayName *)
  roles_cache : gset string;      (* member.roles.cache, by role id *)
  hasManageGuild : bool           (* member.permissions.has(ManageGuild) *)
}.

(** [role.members] is a Collection keyed by member id; it is kept as the
    list of its values in iteration order. *)
Record Role := mkRole {
  role_id : string;
  role_name : string;
  members : list Member
}.

Record Guild := mkGuild {
  roles : gmap string Role        (* guild.roles.cache *)
}.

(** Keys of a Collection are unique. *)
Definition collection (ms : list Member) : Prop := NoDup (m_id <$> ms).

(** ** Locale collation, [String.prototype.localeCompare] *)

Class Locale := { localeCompare : string -> string -> Z }.

(** A consistent comparator: swapping the arguments flips the sign, and
    "not after" is transitive. *)
Class LocaleOrder `{Locale} : Prop := {
  lc_flip : forall a b,
    Z.sgn (localeCompare b a) = (- Z.sgn (localeCompare a b))%Z;
  lc_trans : forall a b c,
    (localeCompare a b <= 0)%Z -> (localeCompare b c <= 0)%Z ->
    (localeCompare a c <= 0)%Z
}.

(** ** State monad over [World] *)

Definition M (A : Type) : Type := World -> A * World.

Definition ret {A} (a : A) : M A := fun w => (a, w).
Definition bind {A B} (m : M A) (k : A -> M B) : M B :=
  fun w => let (a, w') := m w in k a w'.

Declare Scope action_scope.
Delimit Scope action_scope with action.
Notation "x <- c1 ;; c2" := (bind c1 (fun x => c2))
  (at level 100, c1 at next level, right associativity) : action_scope.
Notation "c1 ;; c2" := (bind c1 (fun _ => c2))
  (at level 100, right associativity) : action_scope.
Local Open Scope action_scope.

Definition getData : M Doc := fun w => (data w, w).

Definition putData (d : Doc) : M unit :=
  fun w => (tt, mkWorld d (file w) (clock w) (tick w)).

Definition setCurrentDate (t : string) : M unit :=
  d <- getData ;;
  putData (mkDoc t (completed d) (gangRoleId d) (panelMessageId d) (panelChannelId d)).

Definition setCompleted (l : list string) : M unit :=
  d <- getData ;;
  putData (mkDoc (currentDate d) l (gangRoleId d) (panelMessageId d) (panelChannelId d)).

Definition setGangRoleId (r : option string) : M unit :=
  d <- getData ;;
  putData (mkDoc (currentDate d) (completed d) r (panelMessageId d) (panelChannelId d)).

Definition setPanelMessageId (r : option string) : M unit :=
  d <- getData ;;
  putData (mkDoc (currentDate d) (completed d) (gangRoleId d) r (panelChannelId d)).

Definition setPanelChannelId (r : option string) : M unit :=
  d <- getData ;;
  putData (mkDoc (currentDate d) (completed d) (gangRoleId d) (panelMessageId d) r).

(** JavaScript truthiness of a value that is a string or [null]. *)
Definition truthy (v : option string) : bool :=
  match v with
  | None => false
  | Some s => negb (String.eqb s "")
  end.

(** ** Persistence helpers *)

(** [today()] / [todayISO()] *)
Definition today : M string :=
  fun w => (clock w (tick w), mkWorld (data w) (file w) (clock w) (S (tick w))).

(** The document of the [catch] branch of [loadData].  The basic variant
    writes no panel properties, the panel variant writes them as [null]. *)
Definition defaultDoc (t : string) : Doc := mkDoc t [] None None None.

Definition loadData : M Doc :=
  fun w =>
    match file w with
    | Json d => (d, w)
    | NoFile | Garbage _ => (t <- today ;; ret (defaultDoc t)) w
    end.

Definition saveData : M unit :=
  fun w => (tt, mkWorld (data w) (Json (data w)) (clock w) (tick w)).

Definition ensureToday : M unit :=
  t <- today ;;
  d <- getData ;;
  if bool_decide (currentDate d <> t) then
    setCurrentDate t ;;
    setCompleted [] ;;
    saveData
  else ret tt.

(** Module initialisation: [const data = loadData(); ensureToday(data);] *)
Definition start : M unit :=
  d <- loadData ;;
  putData d ;;
  ensureToday.

(** ** Membership view *)

Definition getGangMembers (g : Guild) : M (option (list Member)) :=
  d <- getData ;;
  if negb (truthy (gangRoleId d)) then ret None
  else
    match gangRoleId d with
    | None => ret None
    | Some rid =>
        match roles g !! rid with
        | None => ret None
        | Some role => ret (Some (members role))
        end
    end.

Definition isGangMember (member : Member) : M bool :=
  d <- getData ;;
  if negb (truthy (gangRoleId d)) then ret true
  else
    match gangRoleId d with
    | None => ret true
    | Some rid => ret (bool_decide (rid ∈ roles_cache member))
    end.

(** [Array.prototype.sort] with a comparator: stable, an element goes
    before another when the comparator is negative, after it when positive,
    and keeps its place when zero. *)
Fixpoint sort_insert {A} (cmp : A -> A -> Z) (x : A) (l : list A) : list A :=
  match l with
  | [] => [x]
  | y :: l' =>
      if bool_decide (cmp x y <= 0)%Z then x :: y :: l'
      else y :: sort_insert cmp x l'
  end.

Definition array_sort {A} (cmp : A -> A -> Z) (l : list A) : list A :=
  foldr (sort_insert cmp) [] l.

Definition byDisplayName `{Locale} (a b : Member) : Z :=
  localeCompare (displayName a) (displayName b).

Record Summary := mkSummary {
  total : option nat;
  doneCount : nat;
  remainingCount : option nat;
  remaining : option (list Member)
}.

Definition summarize `{Locale} (g : Guild) : M Summary :=
  ensureToday ;;
  ms <- getGangMembers g ;;
  d <- getData ;;
  match ms with
  | None => ret (mkSummary None (length (completed d)) None (Some []))
  | Some members =>
      let total := length members in
      let doneSet : gset string := list_to_set (completed d) in
      let remaining :=
        array_sort byDisplayName
          (filter (fun m => m_id m ∉ doneSet) members) in
      ret (mkSummary (Some total) (Nat.min (size doneSet) total)
             (Some (length remaining)) (Some remaining))
  end.

(** ** Interactions and replies *)

Inductive Kind :=
| ChatInputCommand (commandName : string)   (* interaction.isChatInputCommand() *)
| Button (customId : string)                (* interaction.isButton() *)
| OtherInteraction.

(** What one interaction brings with it.  The awaited platform calls are
    fallible; their results are part of the event. *)
Record Interaction := mkInteraction {
  kind : Kind;
  guild : Guild;                            (* interaction.guild *)
  fetchedMember : option Member;            (* guild.members.fetch(user.id); None: rejected *)
  optionRole : Role;                        (* interaction.options.getRole('role') *)
  panelReachable : bool;                    (* the panel channel and message fetches both resolve *)
  channelSend : option (string * string)    (* channel.send(..): (sent.id, sent.channel.id); None: rejected *)
}.

(** The figures shown in a progress text. *)
Inductive Progress :=
| Counts (done all : nat) (left : option nat)   (* Done: done/all, Remaining: left *)
| DoneOnly (done : nat).                        (* Done: done, no role set *)

(** [total ? .. : ..] : [null] and [0] are falsy. *)
Definition progress_if_truthy (s : Summary) : Progress :=
  match total s with
  | Some (S n) => Counts (doneCount s) (S n) (remainingCount s)
  | Some O | None => DoneOnly (doneCount s)
  end.

(** [total !== null ? .. : ..] *)
Definition progress_if_not_null (s : Summary) : Progress :=
  match total s with
  | Some n => Counts (doneCount s) n (remainingCount s)
  | None => DoneOnly (doneCount s)
  end.

Inductive Content :=
| RoleSet (name : string)                    (* Gang role set to **name**. *)
| ChecklistReset                             (* Today's checklist has been reset. *)
| NoGangRole                                 (* You don't have the required gang role .. *)
| AlreadyDone (date : string)                (* You're already marked as done for **date**. *)
| SubmissionRecorded (date : string) (p : Progress)   (* embed 'Submission Recorded' *)
| MarkedDone (date : string)                 (* .. marked as done for **date**. *)
| TodaysProgress (date : string) (p : Progress) (preview : list Member)  (* embed of status *)
| ProgressText (p : Progress)                (* text of the Status button *)
| SetRoleFirst                               (* Set a gang role with **/setgangrole** first. *)
| EveryoneDone                               (* Everyone is done. *)
| RemainingList (ms : list Member)           (* the remaining members, one per line *)
| DailyCheck (ms : list Member)              (* Daily check: mentions .. *)
| AdminsOnly                                 (* Admins only (Manage Server). *)
| HowItWorks                                 (* help text of the panel *)
| PanelPosted.                               (* Panel posted. Consider pinning it. *)

Record Reply := mkReply { content : Content; ephemeral : bool }.

(** How the async listener ends: a reply, a plain [return], or a rejected
    await that is not caught. *)
Inductive Outcome :=
| Replied (r : Reply)
| Ignored
| Threw.

Definition reply (c : Content) (eph : bool) : M Outcome := ret (Replied (mkReply c eph)).

(** [data.completed.push(member.id)] *)
Definition pushCompleted (x : string) : M unit :=
  d <- getData ;;
  setCompleted (completed d ++ [x]).

(** [remaining?.slice(0, 20).map(..).join('\n') || '—'] : the members
    previewed, none standing for the dash. *)
Definition remainingPreview (r : option (list Member)) : list Member :=
  match r with
  | Some l => take 20 l
  | None => []
  end.

(** ** Registered commands and panel buttons *)

Inductive Permission := ManageGuild.        (* PermissionFlagsBits.ManageGuild *)

Record CommandOption := mkOption {
  opt_name : string;
  opt_description : string;
  opt_type : nat;                            (* 8: ROLE *)
  opt_required : bool
}.

Record Command := mkCommand {
  cmd_name : string;
  cmd_description : string;
  default_member_permissions : option Permission;
  cmd_options : list CommandOption
}.



(** * The slash-command bot, [src/index.js] *)

Module Basic.
Section Handlers.
Context `{Locale}.

Definition on_setgangrole (i : Interaction) : M Outcome :=
  let role := optionRole i in
  setGangRoleId (Some (role_id role)) ;;
  saveData ;;
  reply (RoleSet (role_name role)) true.

Definition on_force_reset (i : Interaction) : M Outcome :=
  t <- today ;;
  setCurrentDate t ;;
  setCompleted [] ;;
  saveData ;;
  reply ChecklistReset true.

Definition on_done (i : Interaction) : M Outcome :=
  match fetchedMember i with
  | None => ret Threw
  | Some member =>
      ok <- isGangMember member ;;
      if negb ok then reply NoGangRole true
      else
        d <- getData ;;
        if bool_decide (m_id member ∈ completed d) then
          reply (AlreadyDone (currentDate d)) true
        else
          pushCompleted (m_id member) ;;
          saveData ;;
          s <- summarize (guild i) ;;
          d' <- getData ;;
          reply (SubmissionRecorded (currentDate d') (progress_if_truthy s)) true
  end.

Definition on_status (i : Interaction) : M Outcome :=
  s <- summarize (guild i) ;;
  d <- getData ;;
  reply (TodaysProgress (currentDate d) (progress_if_truthy s)
           (remainingPreview (remaining s))) true.

Definition on_remaining (i : Interaction) : M Outcome :=
  s <- summarize (guild i) ;;
  match remaining s with
  | None => reply SetRoleFirst true
  | Some l =>
      match l with
      | [] => reply EveryoneDone true
      | _ :: _ => reply (RemainingList l) true
      end
  end.

Definition on_ping_remaining (i : Interaction) : M Outcome :=
  s <- summarize (guild i) ;;
  match remaining s with
  | None => reply SetRoleFirst true
  | Some l =>
      match l with
      | [] => reply EveryoneDone true
      | _ :: _ => reply (DailyCheck l) false
      end
  end.

Definition interactionCreate (i : Interaction) : M Outcome :=
  match kind i with
  | ChatInputCommand commandName =>
      ensureToday ;;
      if String.eqb commandName "setgangrole" then on_setgangrole i
      else if String.eqb commandName "force-reset" then on_force_reset i
      else if String.eqb commandName "done" then on_done i
      else if String.eqb commandName "status" then on_status i
      else if String.eqb commandName "remaining" then on_remaining i
      else if String.eqb commandName "ping-remaining" then on_ping_remaining i
      else ret Ignored
  | Button _ | OtherInteraction => ret Ignored
  end.

(** The [commands] array registered for the guild. *)
Definition commands : list Command :=
  [ mkCommand "done" "Mark that you submitted today’s 1000 bud." None [];
    mkCommand "status" "See today’s progress (done vs remaining)." None [];
    mkCommand "remaining" "List members who still need to submit today." None [];
    mkCommand "setgangrole" "Set the required gang role for submissions."
      (Some ManageGuild) [mkOption "role" "Select the gang role" 8 true];
    mkCommand "force-reset" "Force reset today’s checklist (admin)."
      (Some ManageGuild) [];
    mkCommand "ping-remaining" "Ping the members who haven’t submitted yet (admin)."
      (Some ManageGuild) [] ].

End Handlers.
End Basic.

(** * The panel version, [src/unnamed/part_000] *)

Module Panel.
Section Handlers.
Context `{Locale}.

(** The embed of the panel message: the date and the progress lines. *)
Record Embed := mkEmbed { embed_date : string; embed_lines : Progress }.

Definition panelEmbed (g : Guild) : M Embed :=
  s <- summarize g ;;
  d <- getData ;;
  ret (mkEmbed (currentDate d) (progress_if_not_null s)).

(** [try { if (data.panelChannelId && data.panelMessageId) { fetch channel;
    fetch message; msg.edit({embeds: [panelEmbed(guild)], ..}) } } catch {}]:
    the embed is computed once both fetches have resolved; the edit is a
    send to the platform and leaves the store alone. *)
Definition refreshPanel (i : Interaction) : M unit :=
  d <- getData ;;
  if truthy (panelChannelId d) && truthy (panelMessageId d) then
    if panelReachable i then
      panelEmbed (guild i) ;; ret tt
    else ret tt
  else ret tt.

Definition on_btn_done (member : Member) (i : Interaction) : M Outcome :=
  ok <- isGangMember member ;;
  if negb ok then reply NoGangRole true
  else
    d <- getData ;;
    (if negb (bool_decide (m_id member ∈ completed d)) then
       pushCompleted (m_id member) ;;
       saveData
     else ret tt) ;;
    refreshPanel i ;;
    d' <- getData ;;
    reply (MarkedDone (currentDate d')) true.

Definition on_btn_status (i : Interaction) : M Outcome :=
  s <- summarize (guild i) ;;
  reply (ProgressText (progress_if_not_null s)) true.

Definition on_remaining (i : Interaction) : M Outcome :=
  s <- summarize (guild i) ;;
  match remaining s with
  | None => reply SetRoleFirst true
  | Some l =>
      match l with
      | [] => reply EveryoneDone true
      | _ :: _ => reply (RemainingList l) true
      end
  end.

(** The body shared by the Ping button and the [ping-remaining] command,
    once the member is fetched. *)
Definition ping_as (member : Member) (i : Interaction) : M Outcome :=
  if negb (hasManageGuild member) then reply AdminsOnly true
  else
    s <- summarize (guild i) ;;
    match remaining s with
    | None => reply SetRoleFirst true
    | Some l =>
        match l with
        | [] => reply EveryoneDone true
        | _ :: _ => reply (DailyCheck l) false
        end
    end.

Definition on_button (id : string) (i : Interaction) : M Outcome :=
  match fetchedMember i with
  | None => ret Threw
  | Some member =>
      if String.eqb id "btn_help" then reply HowItWorks true
      else if String.eqb id "btn_done" then on_btn_done member i
      else if String.eqb id "btn_status" then on_btn_status i
      else if String.eqb id "btn_remaining" then on_remaining i
      else if String.eqb id "btn_ping" then ping_as member i
      else ret Ignored
  end.

Definition on_setgangrole (i : Interaction) : M Outcome :=
  let role := optionRole i in
  setGangRoleId (Some (role_id role)) ;;
  saveData ;;
  refreshPanel i ;;
  reply (RoleSet (role_name role)) true.

Definition on_force_reset (i : Interaction) : M Outcome :=
  t <- today ;;
  setCurrentDate t ;;
  setCompleted [] ;;
  saveData ;;
  refreshPanel i ;;
  reply ChecklistReset true.

Definition on_done (i : Interaction) : M Outcome :=
  match fetchedMember i with
  | None => ret Threw
  | Some member =>
      ok <- isGangMember member ;;
      if negb ok then reply NoGangRole true
      else
        d <- getData ;;
        (if negb (bool_decide (m_id member ∈ completed d)) then
           pushCompleted (m_id member) ;;
           saveData
         else ret tt) ;;
        refreshPanel i ;;
        d' <- getData ;;
        reply (MarkedDone (currentDate d')) true
  end.

Definition on_status (i : Interaction) : M Outcome :=
  s <- summarize (guild i) ;;
  d <- getData ;;
  reply (TodaysProgress (currentDate d) (progress_if_truthy s)
           (remainingPreview (remaining s))) true.

Definition on_ping_remaining (i : Interaction) : M Outcome :=
  match fetchedMember i with
  | None => ret Threw
  | Some member => ping_as member i
  end.

Definition on_panel (i : Interaction) : M Outcome :=
  panelEmbed (guild i) ;;
  match channelSend i with
  | None => ret Threw
  | Some (sent_id, sent_channel_id) =>
      setPanelMessageId (Some sent_id) ;;
      setPanelChannelId (Some sent_channel_id) ;;
      saveData ;;
      reply PanelPosted true
  end.

Definition interactionCreate (i : Interaction) : M Outcome :=
  ensureToday ;;
  match kind i with
  | Button id => on_button id i
  | ChatInputCommand commandName =>
      if String.eqb commandName "setgangrole" then on_setgangrole i
      else if String.eqb commandName "force-reset" then on_force_reset i
      else if String.eqb commandName "done" then on_done i
      else if String.eqb commandName "status" then on_status i
      else if String.eqb commandName "remaining" then on_remaining i
      else if String.eqb commandName "ping-remaining" then on_ping_remaining i
      else if String.eqb commandName "panel" then on_panel i
      else ret Ignored
  | OtherInteraction => ret Ignored
  end.

(** The [commands] array registered for the guild. *)
Definition commands : list Command :=
  [ mkCommand "done" "Mark that you submitted today’s 1000 bud." None [];
    mkCommand "status" "See today’s done vs remaining." None [];
    mkCommand "remaining" "List members who still need to submit today." None [];
    mkCommand "setgangrole" "Set the required gang role for submissions."
      (Some ManageGuild) [mkOption "role" "Select the gang role" 8 true];
    mkCommand "force-reset" "Force reset today’s checklist (admin)."
      (Some ManageGuild) [];
    mkCommand "ping-remaining" "Ping members who haven’t submitted yet (admin)."
      (Some ManageGuild) [];
    mkCommand "panel" "Post the control panel message in this channel (admin)."
      (Some ManageGuild) [] ].


(** The store side of the [ready] listener: registration and the timer
    set-up do not touch the store; the panel is refreshed when its ids are
    kept and its channel and message can be fetched, [msgGuild] being
    [msg.guild] then and [None] when a fetch is rejected. *)
Definition ready (msgGuild : option Guild) : M unit :=
  d <- getData ;;
  if truthy (panelChannelId d) && truthy (panelMessageId d) then
    match msgGuild with
    | Some g => panelEmbed g ;; ret tt
    | None => ret tt
    end
  else ret tt.

End Handlers.
End Panel.

(** * Reference points for the statements *)

(** The done count as the specification words it: the completed
    identifiers that belong to the role's members, capped by the size of
    the membership. *)
Definition spec_doneCount (done : list string) (ms : list Member) : nat :=
  Nat.min (size ((list_to_set done : gset string) ∩ list_to_set (m_id <$> ms)))
          (length ms).

(** The same day at every read of the clock. *)
Definition steady (w : World) (day : string) : Prop := forall n, clock w n = day.

(** The document is dated by the day the clock stays on. *)
Definition current (w : World) (day : string) : Prop :=
  steady w day /\ currentDate (data w) = day.

(** Same document, same file, same clock; only the number of clock reads
    may differ. *)
Definition sameStore (w w' : World) : Prop :=
  data w' = data w /\ file w' = file w /\ clock w' = clock w.

(** Eligible member: holds the configured role, or no role is configured. *)
Definition holdsRole (d : Doc) (m : Member) : Prop :=
  truthy (gangRoleId d) = false \/
  exists rid, gangRoleId d = Some rid /\ rid ∈ roles_cache m.

(** A role is configured and the member does not hold it. *)
Definition lacksRole (d : Doc) (m : Member) : Prop :=
  exists rid, gangRoleId d = Some rid /\ rid <> "" /\ rid ∉ roles_cache m.

(** [completed] with one more identifier at its end. *)
Definition marked (x : string) (d : Doc) : Doc :=
  mkDoc (currentDate d) (completed d ++ [x]) (gangRoleId d)
        (panelMessageId d) (panelChannelId d).

(** The interaction handled [n] times in a row. *)
Fixpoint repeatedly (handler : M Outcome) (n : nat) : M unit :=
  match n with
  | O => ret tt
  | S n' => handler ;; repeatedly handler n'
  end.

(** The [done] command in either variant: the handler of the command and
    the listener that dispatches to it. *)
Definition doneCommand `{Locale} (i : Interaction) (handler listener : M Outcome) : Prop :=
  (handler = Basic.on_done i /\ listener = Basic.interactionCreate i) \/
  (handler = Panel.on_done i /\ listener = Panel.interactionCreate i).

(** A listener or handler that never answers "Set a gang role with
    /setgangrole first". *)
Definition neverSetRoleFirst (m : M Outcome) : Prop :=
  forall w r, (m w).1 = Replied r -> content r <> SetRoleFirst.

(** No role is configured, or the configured role is not in the guild. *)
Definition noRole (d : Doc) (g : Guild) : Prop :=
  truthy (gangRoleId d) = false \/
  exists rid, gangRoleId d = Some rid /\ roles g !! rid = None.

(** The file holds the document, or nothing is completed yet (the default
    document of a missing file is not written until its first change). *)
Definition inSync (w : World) : Prop :=
  file w = Json (data w) \/ completed (data w) = [].

(** An action that preserves [inSync], and one that ends in it from any
    world. *)
Definition keeps {A} (m : M A) : Prop := forall w, inSync w -> inSync (m w).2.
Definition settles {A} (m : M A) : Prop := forall w, inSync (m w).2.

(** How often an identifier occurs in a list. *)
Definition occurrences (x : string) (l : list string) : nat :=
  length (filter (fun y => y = x) l).

(** The document the rollover leaves behind: a new date, nothing completed,
    the role and the panel references kept. *)
Definition rolled (t : string) (d : Doc) : Doc :=
  mkDoc t [] (gangRoleId d) (panelMessageId d) (panelChannelId d).

(** *** The atomic changes of the store *)

Inductive Variant := BasicBot | PanelBot.

Definition setRole (r : string) (d : Doc) : Doc :=
  mkDoc (currentDate d) (completed d) (Some r) (panelMessageId d) (panelChannelId d).

Definition setPanel (msg ch : string) (d : Doc) : Doc :=
  mkDoc (currentDate d) (completed d) (gangRoleId d) (Some msg) (Some ch).

(** The document replaced and written to the file. *)
Definition saved (d : Doc) (w : World) : World :=
  mkWorld d (Json d) (clock w) (tick w).

(** One read of the clock. *)
Definition afterRead (w : World) : World :=
  mkWorld (data w) (file w) (clock w) (S (tick w)).

(** What one synchronous stretch of a listener can do to the world while
    it handles interaction [i]: read the clock and find the document
    current; roll a stale document over; reset it ([force-reset] only);
    set the role ([setgangrole] only); mark the caller, eligible and not
    yet marked ([done], and the Done button of the panel variant); record
    the panel message ([panel], panel variant only). *)
Inductive Change (v : Variant) (i : Interaction) : World -> World -> Prop :=
| change_read w :
    currentDate (data w) = clock w (tick w) ->
    Change v i w (afterRead w)
| change_rollover w :
    currentDate (data w) <> clock w (tick w) ->
    Change v i w (afterRead (saved (rolled (clock w (tick w)) (data w)) w))
| change_reset w :
    kind i = ChatInputCommand "force-reset" ->
    Change v i w (afterRead (saved (rolled (clock w (tick w)) (data w)) w))
| change_role w :
    kind i = ChatInputCommand "setgangrole" ->
    Change v i w (saved (setRole (role_id (optionRole i)) (data w)) w)
| change_mark w member :
    fetchedMember i = Some member ->
    kind i = ChatInputCommand "done" \/ (v = PanelBot /\ kind i = Button "btn_done") ->
    holdsRole (data w) member ->
    m_id member ∉ completed (data w) ->
    Change v i w (saved (marked (m_id member) (data w)) w)
| change_panel w msg ch :
    v = PanelBot ->
    kind i = ChatInputCommand "panel" ->
    channelSend i = Some (msg, ch) ->
    Change v i w (saved (setPanel msg ch (data w)) w).

(** An action whose effect on the world is a sequence of such changes. *)
Definition walks (v : Variant) (i : Interaction) {A} (m : M A) : Prop :=
  forall w, rtc (Change v i) w (m w).2.

(** An action whose result always satisfies [Q]. *)
Definition yields {A} (Q : A -> Prop) (m : M A) : Prop :=
  forall w, Q (m w).1.

(** Both panel references are kept, or neither. *)
Definition panelPaired (d : Doc) : Prop :=
  panelMessageId d = None <-> panelChannelId d = None.

(** ** A concrete locale: ASCII letters compared without case *)

Definition lowerAscii (c : Ascii.ascii) : Ascii.ascii :=
  let n := Ascii.N_of_ascii c in
  if ((65 <=? n) && (n <=? 90))%N then Ascii.ascii_of_N (n + 32) else c.

Fixpoint lower (s : string) : string :=
  match s with
  | EmptyString => EmptyString
  | String c s' => String (lowerAscii c) (lower s')
  end.

Definition caselessCompare (a b : string) : Z :=
  match String.compare (lower a) (lower b) with
  | Lt => (-1)%Z
  | Eq => 0%Z
  | Gt => 1%Z
  end.

#[export] Instance caseless : Locale := {| localeCompare := caselessCompare |}.

(** ** A concrete guild: role R held by Bo, amy and Zed *)

Definition bo : Member := mkMember "1001" "Bo" {[ "R" ]} false.
Definition amy : Member := mkMember "1002" "amy" {[ "R" ]} false.
Definition zed : Member := mkMember "1003" "Zed" {[ "R" ]} true.
Definition guest : Member := mkMember "1004" "Guest" ∅ false.

Definition gang : Role := mkRole "R" "Gang" [bo; amy; zed].

Definition server : Guild := mkGuild {[ "R" := gang ]}.

(** Two members called Sam around one called alex, for ties. *)
Definition sam1 : Member := mkMember "2001" "Sam" {[ "T" ]} false.
Definition alex : Member := mkMember "2002" "alex" {[ "T" ]} false.
Definition sam2 : Member := mkMember "2003" "Sam" {[ "T" ]} false.

Definition twins : Role := mkRole "T" "Twins" [sam1; alex; sam2].

Definition twinServer : Guild := mkGuild {[ "T" := twins ]}.

Definition may2 : nat -> string := fun _ => "2024-05-02".

Definition docOf (date : string) (done : list string) (role : option string) : Doc :=
  mkDoc date done role None None.

Definition worldOf (d : Doc) : World := mkWorld d (Json d) may2 0.

Definition command (name : string) (caller : Member) : Interaction :=
  mkInteraction (ChatInputCommand name) server (Some caller) gang true None.

(** * Properties *)

(** ** Running the rollover rule *)

Ltac run := unfold bind, ret, reply, getData, putData, setCurrentDate, setCompleted,
  setGangRoleId, setPanelMessageId, setPanelChannelId, pushCompleted,
  saveData, today; simpl.

Lemma ensureToday_stale w :
  currentDate (data w) <> clock w (tick w) ->
  ensureToday w =
    (tt, mkWorld (rolled (clock w (tick w)) (data w))
           (Json (rolled (clock w (tick w)) (data w))) (clock w) (S (tick w))).
Proof.
  intros Hne. unfold ensureToday. run.
  rewrite bool_decide_eq_true_2 by done. reflexivity.
Qed.

Lemma ensureToday_current w :
  currentDate (data w) = clock w (tick w) ->
  ensureToday w = (tt, mkWorld (data w) (file w) (clock w) (S (tick w))).
Proof.
  intros Heq. unfold ensureToday. run.
  rewrite bool_decide_eq_false_2 by (intros Hne; apply Hne, Heq). reflexivity.
Qed.

Lemma ensureToday_frame w :
  clock (ensureToday w).2 = clock w /\ tick (ensureToday w).2 = S (tick w) /\
  currentDate (data (ensureToday w).2) = clock w (tick w) /\
  gangRoleId (data (ensureToday w).2) = gangRoleId (data w) /\
  panelMessageId (data (ensureToday w).2) = panelMessageId (data w) /\
  panelChannelId (data (ensureToday w).2) = panelChannelId (data w).
Proof.
  destruct (decide (currentDate (data w) = clock w (tick w))) as [He|Hne].
  - rewrite ensureToday_current by done. simpl. by rewrite He.
  - rewrite ensureToday_stale by done. done.
Qed.

Lemma getGangMembers_unset g w :
  truthy (gangRoleId (data w)) = false -> getGangMembers g w = (None, w).
Proof. intros Hf. unfold getGangMembers. run. by rewrite Hf. Qed.

Lemma getGangMembers_deleted g w rid :
  gangRoleId (data w) = Some rid -> roles g !! rid = None ->
  getGangMembers g w = (None, w).
Proof.
  intros Hr Hl. unfold getGangMembers. run. rewrite Hr, Hl.
  by destruct (negb _).
Qed.

Lemma getGangMembers_resolved g w rid role :
  gangRoleId (data w) = Some rid -> rid <> "" -> roles g !! rid = Some role ->
  getGangMembers g w = (Some (members role), w).
Proof.
  intros Hr Hne Hl. unfold getGangMembers. run. rewrite Hr, Hl. simpl.
  destruct (String.eqb_spec rid ""); [done|]. reflexivity.
Qed.

Lemma getGangMembers_state g w : (getGangMembers g w).2 = w.
Proof.
  unfold getGangMembers. run. destruct (negb _); [done|].
  destruct (gangRoleId _); [|done]. by destruct (_ !! _).
Qed.

Lemma getGangMembers_reads g w w' :
  gangRoleId (data w) = gangRoleId (data w') ->
  (getGangMembers g w).1 = (getGangMembers g w').1.
Proof.
  intros He. unfold getGangMembers. run. rewrite He.
  destruct (negb _); [done|].
  destruct (gangRoleId (data w')) as [rid|]; [|done].
  by destruct (roles g !! rid).
Qed.

Lemma summarize_unfold `{Locale} g w :
  summarize g w =
    let w1 := (ensureToday w).2 in
    (match (getGangMembers g w1).1 with
     | None => mkSummary None (length (completed (data w1))) None (Some [])
     | Some ms =>
         let doneSet : gset string := list_to_set (completed (data w1)) in
         let rest := array_sort byDisplayName (filter (fun m => m_id m ∉ doneSet) ms) in
         mkSummary (Some (length ms)) (Nat.min (size doneSet) (length ms))
           (Some (length rest)) (Some rest)
     end, w1).
Proof.
  unfold summarize. unfold bind at 1. destruct (ensureToday w) as [[] w1]. simpl.
  unfold bind at 1. pose proof (getGangMembers_state g w1) as Hs.
  destruct (getGangMembers g w1) as [ms w2]. simpl in *. subst w2.
  run. by destruct ms.
Qed.

Lemma summarize_state `{Locale} g w : (summarize g w).2 = (ensureToday w).2.
Proof. by rewrite summarize_unfold. Qed.

(** ** The rollover rule *)

(** C2. On a document dated another day than the clock's, [ensureToday]
    empties [completed], sets [currentDate] to the date read and saves the
    document; on a document already dated today it changes neither the
    document nor the file, so a second application in a row changes
    nothing. *)
Theorem ensureToday_rollover (w : World) :
  let t := clock w (tick w) in
  let w1 := (ensureToday w).2 in
  (currentDate (data w) <> t ->
     completed (data w1) = [] /\ currentDate (data w1) = t /\
     file w1 = Json (data w1)) /\
  (currentDate (data w) = t -> data w1 = data w /\ file w1 = file w) /\
  (clock w (S (tick w)) = t ->
     data (ensureToday w1).2 = data w1 /\ file (ensureToday w1).2 = file w1).
Proof.
  intros t w1. repeat split.
  - subst w1. by rewrite ensureToday_stale.
  - subst w1. by rewrite ensureToday_stale.
  - subst w1. by rewrite ensureToday_stale.
  - subst w1. by rewrite ensureToday_current.
  - subst w1. by rewrite ensureToday_current.
  - destruct (ensureToday_frame w) as (Hc & Ht & Hd & _).
    rewrite ensureToday_current; [done|]. fold w1 in Hc, Ht, Hd.
    rewrite Hd, Hc, Ht. done.
  - destruct (ensureToday_frame w) as (Hc & Ht & Hd & _).
    rewrite ensureToday_current; [done|]. fold w1 in Hc, Ht, Hd.
    rewrite Hd, Hc, Ht. done.
Qed.

(** ** The state store *)

(** C8. When the backing file is absent or does not parse, [loadData]
    returns the default document: dated by the clock, nothing completed, no
    role and no panel references. *)
Theorem loadData_default (w : World) :
  file w = NoFile \/ (exists raw, file w = Garbage raw) ->
  (loadData w).1 = mkDoc (clock w (tick w)) [] None None None /\
  file (loadData w).2 = file w /\ data (loadData w).2 = data w.
Proof.
  intros [Hf|[raw Hf]]; unfold loadData; rewrite Hf; done.
Qed.

Lemma loadData_default_witness :
  (loadData (mkWorld (docOf "" [] None) NoFile may2 0)).1 =
    mkDoc "2024-05-02" [] None None None.
Proof.
  apply (loadData_default (mkWorld (docOf "" [] None) NoFile may2 0)).
  left. reflexivity.
Defined.

(** ** The membership view *)

Lemma sort_insert_perm {A} (cmp : A -> A -> Z) x l : sort_insert cmp x l ≡ₚ x :: l.
Proof.
  induction l as [|y l IH]; simpl; [done|].
  case_bool_decide; [done|]. rewrite IH. apply Permutation_swap.
Qed.

Lemma array_sort_perm {A} (cmp : A -> A -> Z) l : array_sort cmp l ≡ₚ l.
Proof.
  induction l as [|x l IH]; simpl; [done|].
  rewrite sort_insert_perm. by rewrite IH.
Qed.

Lemma array_sort_length {A} (cmp : A -> A -> Z) l : length (array_sort cmp l) = length l.
Proof. by rewrite array_sort_perm. Qed.

(** Members of a Collection whose id is in a set are as many as the ids
    the set shares with the Collection. *)
Lemma count_done (D : gset string) (ms : list Member) :
  collection ms ->
  length (filter (fun m => m_id m ∈ D) ms) = size (D ∩ list_to_set (m_id <$> ms)).
Proof.
  unfold collection. induction ms as [|m ms IH]; intros Hnd.
  - simpl. by rewrite intersection_empty_r_L, size_empty.
  - rewrite fmap_cons in Hnd. apply NoDup_cons in Hnd as [Hnin Hnd].
    rewrite fmap_cons, list_to_set_cons, filter_cons.
    assert (D ∩ ({[m_id m]} ∪ list_to_set (m_id <$> ms)) =
            (D ∩ {[m_id m]}) ∪ (D ∩ list_to_set (m_id <$> ms))) as -> by set_solver.
    rewrite size_union by set_solver.
    destruct (decide (m_id m ∈ D)) as [Hin|Hout].
    + assert (D ∩ {[m_id m]} = {[m_id m]}) as -> by set_solver.
      rewrite size_singleton. simpl. by rewrite IH.
    + assert (D ∩ {[m_id m]} = ∅) as -> by set_solver.
      rewrite size_empty. simpl. by rewrite IH.
Qed.

Lemma count_remaining (D : gset string) (ms : list Member) :
  collection ms ->
  length (filter (fun m => m_id m ∉ D) ms) + size (D ∩ list_to_set (m_id <$> ms))
  = length ms.
Proof.
  intros Hc. rewrite <- (count_done D ms Hc).
  rewrite <- (filter_app_complement (fun m => m_id m ∈ D) ms) at 3.
  rewrite length_app. lia.
Qed.

Lemma size_ids_le (ms : list Member) :
  size (list_to_set (m_id <$> ms) : gset string) <= length ms.
Proof.
  induction ms as [|m ms IH].
  - by rewrite fmap_nil, list_to_set_nil, size_empty.
  - rewrite fmap_cons, list_to_set_cons. simpl.
    rewrite size_union_alt.
    rewrite size_singleton.
    assert (size (list_to_set (m_id <$> ms) ∖ {[m_id m]} : gset string)
            <= size (list_to_set (m_id <$> ms) : gset string)).
    { apply subseteq_size. set_solver. }
    lia.
Qed.

(** C3. With no role configured, and with a configured role that the
    guild no longer has, [summarize] returns [total = null],
    [remainingCount = null], [remaining = []] and the bare length of
    [completed] as [doneCount]. *)
Theorem summarize_indeterminate `{Locale} (g : Guild) (w : World) :
  truthy (gangRoleId (data w)) = false \/
  (exists rid, gangRoleId (data w) = Some rid /\ roles g !! rid = None) ->
  (summarize g w).1 =
    mkSummary None (length (completed (data (summarize g w).2))) None (Some []) /\
  (currentDate (data w) = clock w (tick w) ->
   doneCount (summarize g w).1 = length (completed (data w))).
Proof.
  intros Hrole. rewrite summarize_unfold. cbv zeta.
  destruct (ensureToday_frame w) as (_ & _ & _ & Hg & _).
  assert ((getGangMembers g (ensureToday w).2).1 = None) as ->.
  { destruct Hrole as [Hf|(rid & Hr & Hl)].
    - rewrite getGangMembers_unset; [done|]. by rewrite Hg.
    - rewrite (getGangMembers_deleted _ _ rid); [done| |done]. by rewrite Hg. }
  split; [done|]. intros Hd. simpl. by rewrite ensureToday_current.
Qed.

Lemma summarize_indeterminate_witness :
  (summarize server (worldOf (docOf "2024-05-02" ["1001"; "1002"; "1004"] None))).1 =
    mkSummary None 3 None (Some []).
Proof.
  apply (summarize_indeterminate server
           (worldOf (docOf "2024-05-02" ["1001"; "1002"; "1004"] None))).
  left. reflexivity.
Defined.

(** C1, as the code has it.  With the configured role resolving to a
    Collection [ms], [summarize] returns [total = |ms|] and [doneCount] the
    number of distinct completed identifiers capped by [total], so
    [doneCount <= total]; [remainingCount] is [total] less the completed
    identifiers that are members.  When every completed identifier belongs
    to a member, [doneCount] is the count of completed members and
    [doneCount + remainingCount = total]. *)
Theorem summarize_counts `{Locale} (g : Guild) (w : World) (rid : string) (role : Role) :
  gangRoleId (data w) = Some rid -> rid <> "" -> roles g !! rid = Some role ->
  collection (members role) ->
  let s := (summarize g w).1 in
  let D : gset string := list_to_set (completed (data (summarize g w).2)) in
  let R : gset string := list_to_set (m_id <$> members role) in
  total s = Some (length (members role)) /\
  doneCount s = Nat.min (size D) (length (members role)) /\
  doneCount s <= length (members role) /\
  (exists r, remainingCount s = Some r /\ r + size (D ∩ R) = length (members role)) /\
  (D ⊆ R ->
   doneCount s = spec_doneCount (completed (data (summarize g w).2)) (members role) /\
   exists r, remainingCount s = Some r /\ doneCount s + r = length (members role)).
Proof.
  intros Hr Hne Hl Hc. cbv zeta.
  rewrite summarize_unfold. cbv zeta.
  destruct (ensureToday_frame w) as (_ & _ & _ & Hg & _).
  rewrite (getGangMembers_resolved _ _ rid role); [|by rewrite Hg|done|done].
  simpl. set (D := list_to_set (completed (data (ensureToday w).2)) : gset string).
  set (R := list_to_set (m_id <$> members role) : gset string).
  pose proof (count_remaining D (members role) Hc) as Hrem. fold R in Hrem.
  split; [done|]. split; [done|]. split; [lia|]. split.
  - eexists. split; [done|]. by rewrite array_sort_length.
  - intros Hsub. assert (D ∩ R = D) as HDR by set_solver.
    assert (size D <= length (members role)).
    { etrans; [apply (subseteq_size D R Hsub)|]. apply size_ids_le. }
    split.
    + unfold spec_doneCount. fold D R. by rewrite HDR.
    + eexists. split; [done|]. rewrite array_sort_length.
      rewrite HDR in Hrem. lia.
Qed.

Lemma summarize_counts_witness :
  collection (members gang) /\
  doneCount (summarize server (worldOf (docOf "2024-05-02" ["1002"] (Some "R")))).1
  <= length (members gang).
Proof.
  assert (collection (members gang)) as Hc.
  { unfold collection. apply (bool_decide_unpack _). vm_compute. exact I. }
  split; [exact Hc|].
  apply (summarize_counts server
           (worldOf (docOf "2024-05-02" ["1002"] (Some "R"))) "R" gang);
    [reflexivity | discriminate | reflexivity | exact Hc].
Defined.

(** C1, as worded, fails on a completed identifier that is no member:
    with one such identifier and three members nobody of whom is done, the
    code counts one done and three remaining. *)
Lemma summarize_counts_stale_identifier :
  let w := worldOf (docOf "2024-05-02" ["9999"] (Some "R")) in
  let s := (summarize server w).1 in
  gangRoleId (data w) = Some "R" /\ roles server !! "R" = Some gang /\
  doneCount s <> spec_doneCount (completed (data (summarize server w).2)) (members gang) /\
  forall t r, total s = Some t -> remainingCount s = Some r -> doneCount s + r <> t.
Proof.
  vm_compute. repeat split; try discriminate.
  intros t r [= <-] [= <-]. discriminate.
Qed.

(** ** Order of the remaining members *)

Section Sorting.
Context {A : Type} (cmp : A -> A -> Z).

Let notAfter (a b : A) : Prop := (cmp a b <= 0)%Z.

Hypothesis cmp_total : forall a b, ~ notAfter a b -> notAfter b a.
Hypothesis cmp_trans : forall a b c, notAfter a b -> notAfter b c -> notAfter a c.

Lemma sort_insert_sorted x l :
  StronglySorted notAfter l -> StronglySorted notAfter (sort_insert cmp x l).
Proof.
  induction 1 as [|y l Hs IH Hall]; simpl.
  - by repeat constructor.
  - case_bool_decide as Hxy.
    + constructor; [by constructor|]. constructor; [done|].
      eapply Forall_impl; [exact Hall|]. intros z Hyz. by eapply cmp_trans.
    + constructor; [done|]. rewrite sort_insert_perm.
      constructor; [by apply cmp_total|done].
Qed.

Lemma array_sort_sorted l : StronglySorted notAfter (array_sort cmp l).
Proof.
  induction l as [|x l IH]; simpl; [constructor|]. by apply sort_insert_sorted.
Qed.

End Sorting.

Section Stability.
Context {A : Type} (cmp : A -> A -> Z) (P : A -> Prop) `{!forall x, Decision (P x)}.

(** Elements picked by [P] are never strictly after one another. *)
Hypothesis tied : forall a b, P a -> P b -> (cmp a b <= 0)%Z.

Lemma sort_insert_stable x l : filter P (sort_insert cmp x l) = filter P (x :: l).
Proof.
  induction l as [|y l IH]; simpl; [done|].
  case_bool_decide as Hxy; [done|].
  rewrite filter_cons, IH, !filter_cons.
  destruct (decide (P x)) as [Hx|], (decide (P y)) as [Hy|]; try done.
  destruct Hxy. by apply tied.
Qed.

Lemma array_sort_stable l : filter P (array_sort cmp l) = filter P l.
Proof.
  induction l as [|x l IH]; simpl; [done|].
  rewrite sort_insert_stable, !filter_cons. by rewrite IH.
Qed.

End Stability.

Lemma lc_refl `{LocaleOrder} a : localeCompare a a = 0%Z.
Proof. pose proof (lc_flip a a). lia. Qed.

Lemma lc_total `{LocaleOrder} a b :
  ~ (localeCompare a b <= 0)%Z -> (localeCompare b a <= 0)%Z.
Proof. pose proof (lc_flip a b). lia. Qed.

Lemma lc_tied `{LocaleOrder} n a b :
  localeCompare a n = 0%Z -> localeCompare b n = 0%Z -> (localeCompare a b <= 0)%Z.
Proof.
  intros Ha Hb. apply (lc_trans a n b); [lia|]. pose proof (lc_flip b n). lia.
Qed.

(** C9. With a resolvable configured role and a consistent collation,
    the [remaining] list of [summarize] holds exactly the members not
    completed, in ascending [localeCompare] order of display names, and
    members whose display names are equal (or compare equal) keep the
    order they have in the roster. *)
Theorem summarize_remaining_sorted `{LocaleOrder}
    (g : Guild) (w : World) (rid : string) (role : Role) :
  gangRoleId (data w) = Some rid -> rid <> "" -> roles g !! rid = Some role ->
  let D : gset string := list_to_set (completed (data (summarize g w).2)) in
  let notDone := filter (fun m => m_id m ∉ D) (members role) in
  exists rest,
    remaining (summarize g w).1 = Some rest /\
    rest ≡ₚ notDone /\
    StronglySorted
      (fun a b => (localeCompare (displayName a) (displayName b) <= 0)%Z) rest /\
    (forall n, filter (fun m => displayName m = n) rest
               = filter (fun m => displayName m = n) notDone) /\
    (forall n, filter (fun m => localeCompare (displayName m) n = 0%Z) rest
               = filter (fun m => localeCompare (displayName m) n = 0%Z) notDone).
Proof.
  intros Hr Hne Hl. cbv zeta. rewrite summarize_unfold. cbv zeta.
  destruct (ensureToday_frame w) as (_ & _ & _ & Hg & _).
  rewrite (getGangMembers_resolved _ _ rid role); [|by rewrite Hg|done|done].
  simpl. eexists. split; [done|]. split; [apply array_sort_perm|].
  split; [|split].
  - apply (array_sort_sorted byDisplayName).
    + intros a b. apply lc_total.
    + intros a b c. apply lc_trans.
  - intros n. apply array_sort_stable.
    intros a b Ha Hb. unfold byDisplayName. simpl in *.
    rewrite Ha, Hb, lc_refl. done.
  - intros n. apply array_sort_stable.
    intros a b. apply lc_tied.
Qed.

#[export] Instance caseless_order : @LocaleOrder caseless.
Proof.
  split; simpl; unfold caselessCompare.
  - intros a b. rewrite (String.compare_antisym (lower b) (lower a)).
    by destruct (String.compare (lower a) (lower b)).
  - intros a b c Hab Hbc.
    assert (String.le (lower a) (lower b)) as Hab'.
    { unfold String.le, String.leb.
      by destruct (String.compare (lower a) (lower b)). }
    assert (String.le (lower b) (lower c)) as Hbc'.
    { unfold String.le, String.leb.
      by destruct (String.compare (lower b) (lower c)). }
    pose proof (transitivity Hab' Hbc') as Hac.
    unfold String.le, String.leb in Hac.
    by destruct (String.compare (lower a) (lower c)).
Qed.

Lemma summarize_remaining_sorted_witness :
  exists rest,
    remaining (summarize twinServer (worldOf (docOf "2024-05-02" [] (Some "T")))).1
      = Some rest /\
    rest ≡ₚ [sam1; alex; sam2] /\
    filter (fun m => displayName m = "Sam") rest = [sam1; sam2].
Proof.
  destruct (summarize_remaining_sorted twinServer
              (worldOf (docOf "2024-05-02" [] (Some "T"))) "T" twins
              eq_refl ltac:(discriminate) eq_refl)
    as (rest & Hrest & Hperm & _ & Hname & _).
  exists rest. split; [exact Hrest|]. split; [exact Hperm|].
  exact (Hname "Sam").
Defined.

(** ** Actions that leave the store alone *)

Lemma bind_eq {A B} (m : M A) (k : A -> M B) w : bind m k w = k (m w).1 (m w).2.
Proof. unfold bind. by destruct (m w). Qed.

Lemma sameStore_refl w : sameStore w w.
Proof. done. Qed.

Lemma sameStore_trans w1 w2 w3 : sameStore w1 w2 -> sameStore w2 w3 -> sameStore w1 w3.
Proof. unfold sameStore. intros (-> & -> & ->) (-> & -> & ->). done. Qed.

Lemma current_sameStore w w' day : sameStore w w' -> current w day -> current w' day.
Proof.
  unfold sameStore, current, steady. intros (-> & _ & ->). done.
Qed.

Lemma ensureToday_quiet w day : current w day -> sameStore w (ensureToday w).2.
Proof.
  intros [Hs Hd]. rewrite ensureToday_current; [done|]. by rewrite Hs.
Qed.

Lemma ensureToday_makes_current w day : steady w day -> current (ensureToday w).2 day.
Proof.
  intros Hs. destruct (ensureToday_frame w) as (Hc & _ & Hd & _).
  split; [|by rewrite Hd]. intros n. by rewrite Hc.
Qed.

Lemma summarize_quiet `{Locale} g w day : current w day -> sameStore w (summarize g w).2.
Proof. rewrite summarize_state. apply ensureToday_quiet. Qed.

Lemma panelEmbed_state `{Locale} g w : (Panel.panelEmbed g w).2 = (ensureToday w).2.
Proof.
  unfold Panel.panelEmbed. rewrite bind_eq. run. apply summarize_state.
Qed.

Lemma refreshPanel_quiet `{Locale} i w day :
  current w day -> sameStore w (Panel.refreshPanel i w).2.
Proof.
  intros Hc. unfold Panel.refreshPanel. run.
  destruct (_ && _); [|done]. destruct (panelReachable i); [|done].
  pose proof (panelEmbed_state (guild i) w) as He.
  destruct (Panel.panelEmbed (guild i) w) as [e w']. simpl in *. subst w'.
  by eapply ensureToday_quiet.
Qed.

Lemma isGangMember_run member w :
  isGangMember member w =
    (match gangRoleId (data w) with
     | Some rid => if String.eqb rid "" then true
                   else bool_decide (rid ∈ roles_cache member)
     | None => true
     end, w).
Proof.
  unfold isGangMember. run. destruct (gangRoleId (data w)) as [rid|]; simpl; [|done].
  by destruct (String.eqb rid "").
Qed.

Lemma isGangMember_lacks member w :
  lacksRole (data w) member -> isGangMember member w = (false, w).
Proof.
  intros (rid & Hr & Hne & Hnin). rewrite isGangMember_run, Hr.
  destruct (String.eqb_spec rid ""); [done|]. by rewrite bool_decide_eq_false_2.
Qed.

Lemma isGangMember_holds member w :
  holdsRole (data w) member -> isGangMember member w = (true, w).
Proof.
  intros [Hf|(rid & Hr & Hin)]; rewrite isGangMember_run.
  - destruct (gangRoleId (data w)) as [rid|]; [|done]. simpl in Hf.
    by destruct (String.eqb rid "").
  - rewrite Hr. destruct (String.eqb rid ""); [done|]. by rewrite bool_decide_eq_true_2.
Qed.

(** ** The dispatcher: rollover first, then the handler of the command *)

Lemma basic_dispatch `{Locale} i w name :
  kind i = ChatInputCommand name ->
  Basic.interactionCreate i w =
    (if String.eqb name "setgangrole" then Basic.on_setgangrole i
     else if String.eqb name "force-reset" then Basic.on_force_reset i
     else if String.eqb name "done" then Basic.on_done i
     else if String.eqb name "status" then Basic.on_status i
     else if String.eqb name "remaining" then Basic.on_remaining i
     else if String.eqb name "ping-remaining" then Basic.on_ping_remaining i
     else ret Ignored) (ensureToday w).2.
Proof. intros Hk. unfold Basic.interactionCreate. by rewrite Hk, bind_eq. Qed.

Lemma panel_dispatch `{Locale} i w name :
  kind i = ChatInputCommand name ->
  Panel.interactionCreate i w =
    (if String.eqb name "setgangrole" then Panel.on_setgangrole i
     else if String.eqb name "force-reset" then Panel.on_force_reset i
     else if String.eqb name "done" then Panel.on_done i
     else if String.eqb name "status" then Panel.on_status i
     else if String.eqb name "remaining" then Panel.on_remaining i
     else if String.eqb name "ping-remaining" then Panel.on_ping_remaining i
     else if String.eqb name "panel" then Panel.on_panel i
     else ret Ignored) (ensureToday w).2.
Proof. intros Hk. unfold Panel.interactionCreate. by rewrite bind_eq, Hk. Qed.

Lemma panel_dispatch_button `{Locale} i w id :
  kind i = Button id ->
  Panel.interactionCreate i w = Panel.on_button id i (ensureToday w).2.
Proof. intros Hk. unfold Panel.interactionCreate. by rewrite bind_eq, Hk. Qed.

(** ** [force-reset] *)

Lemma ensureToday_keeps_empty w :
  completed (data w) = [] -> completed (data (ensureToday w).2) = [].
Proof.
  intros He. destruct (decide (currentDate (data w) = clock w (tick w))).
  - by rewrite ensureToday_current.
  - by rewrite ensureToday_stale.
Qed.

Lemma doneCount_zero `{Locale} g w :
  completed (data w) = [] -> doneCount (summarize g w).1 = 0.
Proof.
  intros He. rewrite summarize_unfold. cbv zeta.
  rewrite (ensureToday_keeps_empty w He).
  destruct (getGangMembers g (ensureToday w).2).1; [|done].
  cbn [doneCount]. by rewrite list_to_set_nil, size_empty.
Qed.

Lemma rolled_current w day :
  current w day -> rolled day (data w) =
    mkDoc (currentDate (data w)) [] (gangRoleId (data w))
          (panelMessageId (data w)) (panelChannelId (data w)).
Proof. intros [_ Hd]. unfold rolled. by rewrite Hd. Qed.

Lemma basic_force_reset_state `{Locale} i w day :
  steady w day ->
  (Basic.on_force_reset i w).2 =
    mkWorld (rolled day (data w)) (Json (rolled day (data w))) (clock w) (S (tick w)).
Proof. intros Hs. unfold Basic.on_force_reset. run. by rewrite Hs. Qed.

Lemma panel_force_reset_state `{Locale} i w day :
  steady w day ->
  sameStore
    (mkWorld (rolled day (data w)) (Json (rolled day (data w))) (clock w) (S (tick w)))
    (Panel.on_force_reset i w).2.
Proof.
  intros Hs. unfold Panel.on_force_reset. run. rewrite Hs.
  set (w2 := mkWorld _ _ _ _).
  assert (current w2 day) as Hc by (split; [exact Hs|done]).
  pose proof (refreshPanel_quiet i w2 day Hc) as Hq.
  by destruct (Panel.refreshPanel i w2).
Qed.

(** C7. On a document dated today, [force-reset] empties [completed],
    leaves [currentDate], the role and the panel references as they were,
    and saves the document; a [summarize] that follows counts nobody
    done.  Both variants. *)
Theorem force_reset_clears `{Locale} (i : Interaction) (w : World) (day : string) :
  current w day ->
  kind i = ChatInputCommand "force-reset" ->
  forall w',
    w' = (Basic.interactionCreate i w).2 \/ w' = (Panel.interactionCreate i w).2 ->
    completed (data w') = [] /\
    currentDate (data w') = currentDate (data w) /\
    gangRoleId (data w') = gangRoleId (data w) /\
    panelMessageId (data w') = panelMessageId (data w) /\
    panelChannelId (data w') = panelChannelId (data w) /\
    file w' = Json (data w') /\
    forall g, doneCount (summarize g w').1 = 0.
Proof.
  intros Hc Hk w' Hw'.
  pose proof (ensureToday_quiet w day Hc) as Hq.
  pose proof (current_sameStore _ _ _ Hq Hc) as [Hs1 Hd1].
  destruct Hq as (Hqd & Hqf & Hqc).
  assert (sameStore
            (mkWorld (rolled day (data w)) (Json (rolled day (data w)))
               (clock w) (S (tick (ensureToday w).2))) w') as (Hd & Hf & _).
  { destruct Hw' as [-> | ->].
    - rewrite (basic_dispatch i w _ Hk).
      change (sameStore
        (mkWorld (rolled day (data w)) (Json (rolled day (data w)))
           (clock w) (S (tick (ensureToday w).2)))
        (Basic.on_force_reset i (ensureToday w).2).2).
      rewrite (basic_force_reset_state i _ day Hs1), Hqd, Hqc. done.
    - rewrite (panel_dispatch i w _ Hk).
      change (sameStore
        (mkWorld (rolled day (data w)) (Json (rolled day (data w)))
           (clock w) (S (tick (ensureToday w).2)))
        (Panel.on_force_reset i (ensureToday w).2).2).
      pose proof (panel_force_reset_state i _ day Hs1) as Hp.
      by rewrite Hqd, Hqc in Hp. }
  simpl in Hd, Hf. rewrite (rolled_current w day Hc) in Hd, Hf.
  rewrite Hf, Hd. simpl. repeat split.
  intros g. apply doneCount_zero. by rewrite Hd.
Qed.

Lemma force_reset_clears_witness :
  let w := worldOf (docOf "2024-05-02" ["1001"; "1002"] (Some "R")) in
  completed (data (Basic.interactionCreate (command "force-reset" zed) w).2) = [] /\
  currentDate (data (Basic.interactionCreate (command "force-reset" zed) w).2)
    = "2024-05-02".
Proof.
  cbv zeta.
  destruct (force_reset_clears (command "force-reset" zed)
              (worldOf (docOf "2024-05-02" ["1001"; "1002"] (Some "R")))
              "2024-05-02"
              (conj (fun _ => eq_refl) eq_refl) eq_refl _ (or_introl eq_refl))
    as (Hdone & Hdate & _).
  split; [exact Hdone | exact Hdate].
Defined.

(** ** [done] *)

Lemma holdsRole_role d d' m :
  gangRoleId d' = gangRoleId d -> holdsRole d m -> holdsRole d' m.
Proof. unfold holdsRole. by intros ->. Qed.

Lemma basic_done_rejected `{Locale} i member w :
  fetchedMember i = Some member -> lacksRole (data w) member ->
  Basic.on_done i w = (Replied (mkReply NoGangRole true), w).
Proof.
  intros Hf Hl. unfold Basic.on_done. rewrite Hf, bind_eq.
  by rewrite (isGangMember_lacks _ _ Hl).
Qed.

Lemma panel_done_rejected `{Locale} i member w :
  fetchedMember i = Some member -> lacksRole (data w) member ->
  Panel.on_done i w = (Replied (mkReply NoGangRole true), w).
Proof.
  intros Hf Hl. unfold Panel.on_done. rewrite Hf, bind_eq.
  by rewrite (isGangMember_lacks _ _ Hl).
Qed.

Lemma basic_done_again `{Locale} i member w :
  fetchedMember i = Some member -> holdsRole (data w) member ->
  m_id member ∈ completed (data w) ->
  Basic.on_done i w = (Replied (mkReply (AlreadyDone (currentDate (data w))) true), w).
Proof.
  intros Hf Hh Hin. unfold Basic.on_done. rewrite Hf, bind_eq.
  rewrite (isGangMember_holds _ _ Hh). simpl. rewrite bind_eq. simpl.
  by rewrite bool_decide_eq_true_2.
Qed.

Lemma panel_done_again `{Locale} i member w day :
  fetchedMember i = Some member -> holdsRole (data w) member ->
  current w day -> m_id member ∈ completed (data w) ->
  sameStore w (Panel.on_done i w).2.
Proof.
  intros Hf Hh Hc Hin. unfold Panel.on_done. rewrite Hf, bind_eq.
  rewrite (isGangMember_holds _ _ Hh). simpl. rewrite bind_eq. simpl.
  rewrite bool_decide_eq_true_2 by done. simpl. rewrite !bind_eq. simpl.
  change (ret () w).2 with w. by apply (refreshPanel_quiet i w day).
Qed.

Lemma basic_done_new `{Locale} i member w day :
  fetchedMember i = Some member -> holdsRole (data w) member ->
  current w day -> m_id member ∉ completed (data w) ->
  sameStore
    (mkWorld (marked (m_id member) (data w)) (Json (marked (m_id member) (data w)))
       (clock w) (tick w))
    (Basic.on_done i w).2.
Proof.
  intros Hf Hh Hc Hnin. unfold Basic.on_done. rewrite Hf, bind_eq.
  rewrite (isGangMember_holds _ _ Hh). simpl. rewrite bind_eq. simpl.
  rewrite bool_decide_eq_false_2 by done. rewrite !bind_eq. simpl.
  match goal with |- context [summarize (guild i) ?v] => set (w2 := v) end.
  assert (current w2 day) as Hc2 by (destruct Hc; by split).
  exact (summarize_quiet (guild i) w2 day Hc2).
Qed.

Lemma panel_done_new `{Locale} i member w day :
  fetchedMember i = Some member -> holdsRole (data w) member ->
  current w day -> m_id member ∉ completed (data w) ->
  sameStore
    (mkWorld (marked (m_id member) (data w)) (Json (marked (m_id member) (data w)))
       (clock w) (tick w))
    (Panel.on_done i w).2.
Proof.
  intros Hf Hh Hc Hnin. unfold Panel.on_done. rewrite Hf, bind_eq.
  rewrite (isGangMember_holds _ _ Hh). simpl. rewrite bind_eq. simpl.
  rewrite bool_decide_eq_false_2 by done. simpl. rewrite !bind_eq. simpl.
  match goal with |- context [Panel.refreshPanel i ?v] => set (w2 := v) end.
  assert (current w2 day) as Hc2 by (destruct Hc; by split).
  exact (refreshPanel_quiet i w2 day Hc2).
Qed.

Section DoneCommand.
Context `{Locale} (i : Interaction) (member : Member) (handler listener : M Outcome).
Hypothesis Hkind : kind i = ChatInputCommand "done".
Hypothesis Hfetched : fetchedMember i = Some member.
Hypothesis Hvariant : doneCommand i handler listener.

Lemma done_dispatch w : listener w = handler (ensureToday w).2.
Proof.
  destruct Hvariant as [[-> ->]|[-> ->]].
  - by rewrite (basic_dispatch i w _ Hkind).
  - by rewrite (panel_dispatch i w _ Hkind).
Qed.

Lemma done_rejected w :
  lacksRole (data w) member -> handler w = (Replied (mkReply NoGangRole true), w).
Proof.
  destruct Hvariant as [[-> _]|[-> _]];
    [by apply basic_done_rejected | by apply panel_done_rejected].
Qed.

Lemma done_again w day :
  current w day -> holdsRole (data w) member -> m_id member ∈ completed (data w) ->
  sameStore w (handler w).2.
Proof.
  intros Hc Hh Hin. destruct Hvariant as [[-> _]|[-> _]].
  - by rewrite (basic_done_again i member w).
  - by apply (panel_done_again i member w day).
Qed.

Lemma done_new w day :
  current w day -> holdsRole (data w) member -> m_id member ∉ completed (data w) ->
  data (handler w).2 = marked (m_id member) (data w) /\
  file (handler w).2 = Json (marked (m_id member) (data w)) /\
  clock (handler w).2 = clock w.
Proof.
  intros Hc Hh Hnin. destruct Hvariant as [[-> _]|[-> _]].
  - by apply (basic_done_new i member w day).
  - by apply (panel_done_new i member w day).
Qed.

(** What one [done] interaction leaves, started on any document. *)
Lemma done_once w day :
  steady w day -> holdsRole (data w) member ->
  let w0 := (ensureToday w).2 in
  let w1 := (listener w).2 in
  current w1 day /\ holdsRole (data w1) member /\
  m_id member ∈ completed (data w1) /\
  ((m_id member ∈ completed (data w0) /\ data w1 = data w0 /\ file w1 = file w0) \/
   ((m_id member ∉ completed (data w0)) /\
    data w1 = marked (m_id member) (data w0) /\ file w1 = Json (data w1))).
Proof.
  intros Hs Hh. cbv zeta. rewrite done_dispatch.
  pose proof (ensureToday_makes_current w day Hs) as Hc0.
  destruct (ensureToday_frame w) as (_ & _ & _ & Hg & _).
  pose proof (holdsRole_role _ _ _ Hg Hh) as Hh0.
  set (w0 := (ensureToday w).2) in *.
  destruct (decide (m_id member ∈ completed (data w0))) as [Hin|Hnin].
  - pose proof (done_again w0 day Hc0 Hh0 Hin) as Hq.
    pose proof (current_sameStore _ _ _ Hq Hc0) as Hc1.
    destruct Hq as (Hd & Hf & _). rewrite Hd.
    split; [done|]. split; [done|]. split; [done|]. by left.
  - destruct (done_new w0 day Hc0 Hh0 Hnin) as (Hd & Hf & Hck).
    refine (conj _ (conj _ (conj _ _))).
    + destruct Hc0 as [Hs0 Hd0]. split.
      * intros n. by rewrite Hck.
      * by rewrite Hd.
    + by rewrite Hd.
    + rewrite Hd. simpl. set_solver.
    + right. by rewrite Hf, Hd.
Qed.

End DoneCommand.

(** C5. In either variant the listener applies the rollover rule and
    then the [done] handler.  For a caller who lacks the configured role
    the handler replies with the rejection and changes nothing.  For an
    eligible caller on a document dated today the caller's identifier is in
    [completed] afterwards: appended and the document saved when it was not
    there, document and file untouched when it already was; so the file
    holds the document afterwards in every world that is in sync, as all
    worlds reached from the start of the process are. *)
Theorem done_handler `{Locale} (i : Interaction) (member : Member)
    (handler listener : M Outcome) :
  kind i = ChatInputCommand "done" ->
  fetchedMember i = Some member ->
  doneCommand i handler listener ->
  (forall w, listener w = handler (ensureToday w).2) /\
  (forall w, lacksRole (data w) member ->
     handler w = (Replied (mkReply NoGangRole true), w)) /\
  (forall w day, current w day -> holdsRole (data w) member ->
     m_id member ∈ completed (data (handler w).2) /\
     (m_id member ∉ completed (data w) ->
        data (handler w).2 = marked (m_id member) (data w) /\
        file (handler w).2 = Json (data (handler w).2)) /\
     (m_id member ∈ completed (data w) ->
        data (handler w).2 = data w /\ file (handler w).2 = file w) /\
     (inSync w -> file (handler w).2 = Json (data (handler w).2))) /\
  (forall w day, steady w day -> holdsRole (data w) member ->
     m_id member ∈ completed (data (listener w).2)).
Proof.
  intros Hk Hf Hv. split; [|split; [|split] ].
  - intros w. by apply (done_dispatch i).
  - intros w. by apply (done_rejected i member handler listener).
  - intros w day Hc Hh.
    destruct (decide (m_id member ∈ completed (data w))) as [Hin|Hnin].
    + destruct (done_again i member handler listener Hf Hv w day Hc Hh Hin)
        as (Hd & Hfl & _).
      rewrite Hd, Hfl. split; [done|]. split; [done|]. split; [done|].
      intros [Hsync|Hempty]; [done|]. rewrite Hempty in Hin.
      by apply elem_of_nil in Hin.
    + destruct (done_new i member handler listener Hf Hv w day Hc Hh Hnin)
        as (Hd & Hfl & _).
      rewrite Hd, Hfl. split; [simpl; set_solver|]. done.
  - intros w day Hs Hh.
    by destruct (done_once i member handler listener Hk Hf Hv w day Hs Hh)
      as (_ & _ & Hin & _).
Qed.

Lemma done_handler_witness :
  (Basic.on_done (command "done" guest)
     (worldOf (docOf "2024-05-02" ["1001"] (Some "R")))
   = (Replied (mkReply NoGangRole true),
      worldOf (docOf "2024-05-02" ["1001"] (Some "R")))) /\
  "1002" ∈ completed (data (Basic.interactionCreate (command "done" amy)
                     (worldOf (docOf "2024-05-02" ["1001"] (Some "R")))).2).
Proof.
  split.
  - apply (done_handler (command "done" guest) guest
             (Basic.on_done (command "done" guest))
             (Basic.interactionCreate (command "done" guest))
             eq_refl eq_refl (or_introl (conj eq_refl eq_refl))).
    exists "R". split; [reflexivity|]. split; [discriminate|]. set_solver.
  - apply (done_handler (command "done" amy) amy
             (Basic.on_done (command "done" amy))
             (Basic.interactionCreate (command "done" amy))
             eq_refl eq_refl (or_introl (conj eq_refl eq_refl))
           : _ /\ _ /\ _ /\
             (forall w day, steady w day -> holdsRole (data w) amy ->
                m_id amy ∈ completed (data (Basic.interactionCreate
                                              (command "done" amy) w).2)))
      with (day := "2024-05-02").
    + intros n. reflexivity.
    + right. exists "R". split; [reflexivity|]. set_solver.
Defined.

Lemma occurrences_notin x l : x ∉ l -> occurrences x l = 0.
Proof.
  unfold occurrences. induction l as [|y l IH]; intros Hnin; [done|].
  apply not_elem_of_cons in Hnin as [Hne Hnin].
  rewrite filter_cons_False by congruence. by apply IH.
Qed.

Lemma occurrences_in x l : NoDup l -> x ∈ l -> occurrences x l = 1.
Proof.
  unfold occurrences. induction 1 as [|y l Hnin Hnd IH]; intros Hin.
  - by apply elem_of_nil in Hin.
  - destruct (decide (y = x)) as [->|Hne].
    + rewrite filter_cons_True by done. simpl. f_equal.
      exact (occurrences_notin x l Hnin).
    + rewrite filter_cons_False by done. apply IH.
      apply elem_of_cons in Hin as [->|Hin]; done.
Qed.

Lemma occurrences_marked x l : x ∉ l -> occurrences x (l ++ [x]) = 1.
Proof.
  intros Hnin. unfold occurrences. rewrite filter_app, length_app.
  pose proof (occurrences_notin x l Hnin) as Hz. unfold occurrences in Hz.
  rewrite Hz. by rewrite filter_cons_True.
Qed.

Lemma ensureToday_NoDup w :
  NoDup (completed (data w)) -> NoDup (completed (data (ensureToday w).2)).
Proof.
  intros Hnd. destruct (decide (currentDate (data w) = clock w (tick w))).
  - by rewrite ensureToday_current.
  - rewrite ensureToday_stale by done. simpl. constructor.
Qed.

Section DoneAgain.
Context `{Locale} (i : Interaction) (member : Member) (handler listener : M Outcome).
Hypothesis Hkind : kind i = ChatInputCommand "done".
Hypothesis Hfetched : fetchedMember i = Some member.
Hypothesis Hvariant : doneCommand i handler listener.

(** A member already marked: the whole interaction leaves the store alone. *)
Lemma done_fixed w day :
  current w day -> holdsRole (data w) member -> m_id member ∈ completed (data w) ->
  sameStore w (listener w).2.
Proof.
  intros Hc Hh Hin. rewrite (done_dispatch i handler listener Hkind Hvariant).
  pose proof (ensureToday_quiet w day Hc) as Hq.
  pose proof (current_sameStore _ _ _ Hq Hc) as Hc0.
  eapply sameStore_trans; [exact Hq|].
  destruct Hq as (Hd & _).
  apply (done_again i member handler listener Hfetched Hvariant _ day Hc0);
    by rewrite Hd.
Qed.

Lemma done_fixed_repeatedly n : forall w day,
  current w day -> holdsRole (data w) member -> m_id member ∈ completed (data w) ->
  sameStore w (repeatedly listener n w).2.
Proof.
  induction n as [|n IH]; intros w day Hc Hh Hin; [done|].
  simpl. rewrite bind_eq.
  pose proof (done_fixed w day Hc Hh Hin) as Hq.
  eapply sameStore_trans; [exact Hq|].
  pose proof (current_sameStore _ _ _ Hq Hc) as Hc1.
  destruct Hq as (Hd & _).
  apply (IH _ day Hc1); by rewrite Hd.
Qed.

End DoneAgain.

(** C6, as the code has it.  For a member eligible to submit (holding
    the configured role, or no role configured) and a document whose
    [completed] has no duplicates, [done] invoked on one day leaves exactly
    one occurrence of the member's identifier; a second invocation changes
    neither the document nor the file, and neither does any further one.
    Both variants. *)
Theorem done_twice `{Locale} (i : Interaction) (member : Member)
    (handler listener : M Outcome) (w : World) (day : string) :
  kind i = ChatInputCommand "done" ->
  fetchedMember i = Some member ->
  doneCommand i handler listener ->
  steady w day ->
  holdsRole (data w) member ->
  NoDup (completed (data w)) ->
  let w1 := (listener w).2 in
  occurrences (m_id member) (completed (data w1)) = 1 /\
  (data (listener w1).2 = data w1 /\ file (listener w1).2 = file w1) /\
  forall n,
    data (repeatedly listener (S n) w).2 = data w1 /\
    file (repeatedly listener (S n) w).2 = file w1.
Proof.
  intros Hk Hf Hv Hs Hh Hnd. cbv zeta.
  destruct (done_once i member handler listener Hk Hf Hv w day Hs Hh)
    as (Hc1 & Hh1 & Hin1 & Hcase).
  pose proof (ensureToday_NoDup w Hnd) as Hnd0.
  split; [|split].
  - destruct Hcase as [(Hin & Hd & _)|(Hnin & Hd & _)]; rewrite Hd.
    + by apply occurrences_in.
    + by apply occurrences_marked.
  - destruct (done_fixed i member handler listener Hk Hf Hv _ day Hc1 Hh1 Hin1)
      as (Hd & Hfl & _).
    done.
  - intros n. simpl. rewrite bind_eq.
    destruct (done_fixed_repeatedly i member handler listener Hk Hf Hv n
                _ day Hc1 Hh1 Hin1) as (Hd & Hfl & _).
    done.
Qed.

Lemma done_twice_witness :
  let w := worldOf (docOf "2024-05-02" ["1001"] (Some "R")) in
  let again := repeatedly (Panel.interactionCreate (command "done" amy)) 2 w in
  occurrences "1002"
    (completed (data (Panel.interactionCreate (command "done" amy) w).2)) = 1 /\
  data again.2 = data (Panel.interactionCreate (command "done" amy) w).2.
Proof.
  cbv zeta.
  assert (holdsRole (docOf "2024-05-02" ["1001"] (Some "R")) amy) as Hh.
  { right. exists "R". split; [reflexivity|]. set_solver. }
  assert (NoDup ["1001"]) as Hnd.
  { apply (bool_decide_unpack _). vm_compute. exact I. }
  destruct (done_twice (command "done" amy) amy
              (Panel.on_done (command "done" amy))
              (Panel.interactionCreate (command "done" amy))
              (worldOf (docOf "2024-05-02" ["1001"] (Some "R"))) "2024-05-02"
              eq_refl eq_refl (or_intror (conj eq_refl eq_refl))
              (fun _ => eq_refl) Hh Hnd)
    as (Hone & _ & Hrep).
  split; [exact Hone|]. exact (proj1 (Hrep 1)).
Defined.

(** C6, as worded, fails for a member who lacks the configured role: the
    guest's two [done] invocations are both rejected and [completed], free
    of duplicates, holds no occurrence of the guest's identifier. *)
Lemma done_twice_ineligible :
  let w := worldOf (docOf "2024-05-02" ["1001"] (Some "R")) in
  let twice := repeatedly (Basic.interactionCreate (command "done" guest)) 2 w in
  let twice' := repeatedly (Panel.interactionCreate (command "done" guest)) 2 w in
  NoDup (completed (data w)) /\
  (Basic.interactionCreate (command "done" guest) w).1
    = Replied (mkReply NoGangRole true) /\
  occurrences (m_id guest) (completed (data twice.2)) = 0 /\
  occurrences (m_id guest) (completed (data twice'.2)) = 0.
Proof.
  cbv zeta. split.
  - apply (bool_decide_unpack _). vm_compute. exact I.
  - vm_compute. done.
Qed.

(** ** The guard on [remaining] *)

Lemma remaining_is_list `{Locale} g w : exists l, remaining (summarize g w).1 = Some l.
Proof.
  rewrite summarize_unfold. cbv zeta.
  destruct (getGangMembers g (ensureToday w).2).1; simpl; eauto.
Qed.

Lemma never_bind {A} (m : M A) (k : A -> M Outcome) :
  (forall a, neverSetRoleFirst (k a)) -> neverSetRoleFirst (bind m k).
Proof. intros Hk w r. rewrite bind_eq. apply Hk. Qed.

Lemma never_bind_post {A} (P : A -> Prop) (m : M A) (k : A -> M Outcome) :
  (forall w, P (m w).1) -> (forall a, P a -> neverSetRoleFirst (k a)) ->
  neverSetRoleFirst (bind m k).
Proof. intros Hm Hk w r. rewrite bind_eq. by apply Hk. Qed.

Lemma never_reply c e : c <> SetRoleFirst -> neverSetRoleFirst (reply c e).
Proof. intros Hc w r [= <-]. done. Qed.

Lemma never_ret o : (forall r, o <> Replied r) -> neverSetRoleFirst (ret o).
Proof. intros Ho w r Hr. simpl in Hr. by destruct (Ho r). Qed.

Create HintDb never discriminated.
#[local] Hint Resolve never_reply never_ret : never.
#[local] Hint Extern 1 (_ <> _) => discriminate : never.
#[local] Hint Extern 2 (neverSetRoleFirst (bind _ _)) => apply never_bind; intros : never.
#[local] Hint Extern 2 (neverSetRoleFirst (if ?b then _ else _)) => destruct b : never.
#[local] Hint Extern 2 (neverSetRoleFirst (match ?x with _ => _ end)) => destruct x : never.

(** After [summarize], the three-way answer on its [remaining]. *)
Lemma never_after_summarize `{Locale} g (k : Summary -> M Outcome) :
  (forall s l, remaining s = Some l -> neverSetRoleFirst (k s)) ->
  neverSetRoleFirst (bind (summarize g) k).
Proof.
  intros Hk. apply (never_bind_post (fun s => exists l, remaining s = Some l)).
  - intros w. apply remaining_is_list.
  - intros s [l Hl]. by eapply Hk.
Qed.

Lemma basic_remaining_never `{Locale} i : neverSetRoleFirst (Basic.on_remaining i).
Proof.
  apply never_after_summarize. intros s l ->. destruct l; auto with never.
Qed.

Lemma basic_ping_never `{Locale} i : neverSetRoleFirst (Basic.on_ping_remaining i).
Proof.
  apply never_after_summarize. intros s l ->. destruct l; auto with never.
Qed.

Lemma panel_remaining_never `{Locale} i : neverSetRoleFirst (Panel.on_remaining i).
Proof.
  apply never_after_summarize. intros s l ->. destruct l; auto with never.
Qed.

Lemma panel_ping_as_never `{Locale} member i : neverSetRoleFirst (Panel.ping_as member i).
Proof.
  unfold Panel.ping_as. destruct (negb _); [auto with never|].
  apply never_after_summarize. intros s l ->. destruct l; auto with never.
Qed.

Lemma basic_listener_never `{Locale} i : neverSetRoleFirst (Basic.interactionCreate i).
Proof.
  unfold Basic.interactionCreate.
  destruct (kind i) as [name| |]; [|auto with never..].
  apply never_bind; intros _.
  repeat (match goal with |- neverSetRoleFirst (if ?b then _ else _) => destruct b end);
    [..|auto with never].
  - unfold Basic.on_setgangrole. auto 10 with never.
  - unfold Basic.on_force_reset. auto 10 with never.
  - unfold Basic.on_done. auto 20 with never.
  - unfold Basic.on_status. auto 10 with never.
  - apply basic_remaining_never.
  - apply basic_ping_never.
Qed.

Lemma panel_listener_never `{Locale} i : neverSetRoleFirst (Panel.interactionCreate i).
Proof.
  unfold Panel.interactionCreate. apply never_bind; intros _.
  destruct (kind i) as [name|id|]; [| |auto with never].
  - repeat (match goal with |- neverSetRoleFirst (if ?b then _ else _) => destruct b end);
      [..|auto with never].
    + unfold Panel.on_setgangrole. auto 10 with never.
    + unfold Panel.on_force_reset. auto 10 with never.
    + unfold Panel.on_done. auto 20 with never.
    + unfold Panel.on_status. auto 10 with never.
    + apply panel_remaining_never.
    + unfold Panel.on_ping_remaining.
      destruct (fetchedMember i); [apply panel_ping_as_never|auto with never].
    + unfold Panel.on_panel. apply never_bind; intros _.
      destruct (channelSend i) as [[? ?]|]; auto 10 with never.
  - unfold Panel.on_button. destruct (fetchedMember i) as [member|]; [|auto with never].
    repeat (match goal with |- neverSetRoleFirst (if ?b then _ else _) => destruct b end);
      [..|auto with never].
    + auto with never.
    + unfold Panel.on_btn_done. auto 20 with never.
    + unfold Panel.on_btn_status. auto 10 with never.
    + apply panel_remaining_never.
    + apply panel_ping_as_never.
Qed.

Lemma noRole_rollover w g : noRole (data w) g -> noRole (data (ensureToday w).2) g.
Proof.
  destruct (ensureToday_frame w) as (_ & _ & _ & Hg & _).
  unfold noRole. by rewrite Hg.
Qed.

Lemma summarize_no_role `{Locale} g w :
  noRole (data w) g -> remaining (summarize g w).1 = Some [].
Proof.
  intros Hn%noRole_rollover. rewrite summarize_unfold. cbv zeta.
  assert ((getGangMembers g (ensureToday w).2).1 = None) as ->; [|done].
  destruct Hn as [Hf|(rid & Hr & Hl)].
  - by rewrite getGangMembers_unset.
  - by rewrite (getGangMembers_deleted _ _ rid).
Qed.

Lemma remaining_no_role `{Locale} i w :
  noRole (data w) (guild i) ->
  Basic.on_remaining i w = (Replied (mkReply EveryoneDone true), (ensureToday w).2) /\
  Panel.on_remaining i w = (Replied (mkReply EveryoneDone true), (ensureToday w).2).
Proof.
  intros Hn. unfold Basic.on_remaining, Panel.on_remaining. rewrite bind_eq.
  rewrite (summarize_no_role _ _ Hn), summarize_state. done.
Qed.

(** C10. In either variant no interaction is ever answered with "Set a
    gang role with /setgangrole first": the [remaining] of [summarize] is
    always a list, so the guard of the [remaining] and [ping-remaining]
    handlers (and of their buttons) never fires.  With no role configured,
    or with a role the guild no longer has, [remaining] answers "Everyone
    is done." *)
Theorem set_role_first_unreachable `{Locale} (i : Interaction) :
  (forall g w, exists l, remaining (summarize g w).1 = Some l) /\
  neverSetRoleFirst (Basic.on_remaining i) /\
  neverSetRoleFirst (Basic.on_ping_remaining i) /\
  neverSetRoleFirst (Panel.on_remaining i) /\
  neverSetRoleFirst (Panel.on_ping_remaining i) /\
  neverSetRoleFirst (Basic.interactionCreate i) /\
  neverSetRoleFirst (Panel.interactionCreate i) /\
  (forall w, noRole (data w) (guild i) ->
     Basic.on_remaining i w = (Replied (mkReply EveryoneDone true), (ensureToday w).2) /\
     Panel.on_remaining i w = (Replied (mkReply EveryoneDone true), (ensureToday w).2)) /\
  (forall w, noRole (data w) (guild i) -> kind i = ChatInputCommand "remaining" ->
     (Basic.interactionCreate i w).1 = Replied (mkReply EveryoneDone true) /\
     (Panel.interactionCreate i w).1 = Replied (mkReply EveryoneDone true)).
Proof.
  split; [intros g w; apply remaining_is_list|].
  split; [apply basic_remaining_never|].
  split; [apply basic_ping_never|].
  split; [apply panel_remaining_never|].
  split.
  { unfold Panel.on_ping_remaining.
    destruct (fetchedMember i); [apply panel_ping_as_never|auto with never]. }
  split; [apply basic_listener_never|].
  split; [apply panel_listener_never|].
  split; [intros w; apply remaining_no_role|].
  intros w Hn Hk.
  rewrite (basic_dispatch i w _ Hk), (panel_dispatch i w _ Hk).
  destruct (remaining_no_role i _ (noRole_rollover w _ Hn)) as [Hb Hp].
  change ((Basic.on_remaining i (ensureToday w).2).1 = Replied (mkReply EveryoneDone true) /\
          (Panel.on_remaining i (ensureToday w).2).1 = Replied (mkReply EveryoneDone true)).
  by rewrite Hb, Hp.
Qed.

(** ** [ping-remaining] and the administrator capability *)

Lemma basic_ping_run `{Locale} i w :
  exists l, remaining (summarize (guild i) w).1 = Some l /\
    Basic.on_ping_remaining i w =
      (Replied (match l with
                | [] => mkReply EveryoneDone true
                | _ :: _ => mkReply (DailyCheck l) false
                end), (ensureToday w).2).
Proof.
  destruct (remaining_is_list (guild i) w) as [l Hl]. exists l. split; [done|].
  unfold Basic.on_ping_remaining. rewrite bind_eq, Hl, summarize_state.
  by destruct l.
Qed.

(** C4, as the code has it.  In the panel variant a caller without the
    Manage Server capability gets "Admins only" from the [ping-remaining]
    handler, and from the Ping button, and document, file and clock reads
    stay as they were; through the listener the only change is the rollover
    applied before the handler.  The handler of the basic variant does not
    look at the caller: it answers with the remaining members or with
    "Everyone is done.", and changes the store by the rollover only. *)
Theorem ping_remaining_gate `{Locale} (i : Interaction) (member : Member) :
  fetchedMember i = Some member ->
  hasManageGuild member = false ->
  (forall w, Panel.on_ping_remaining i w = (Replied (mkReply AdminsOnly true), w)) /\
  (forall w, Panel.on_button "btn_ping" i w = (Replied (mkReply AdminsOnly true), w)) /\
  (forall w, kind i = ChatInputCommand "ping-remaining" \/ kind i = Button "btn_ping" ->
     Panel.interactionCreate i w =
       (Replied (mkReply AdminsOnly true), (ensureToday w).2)) /\
  (forall w, exists l,
     remaining (summarize (guild i) w).1 = Some l /\
     Basic.on_ping_remaining i w =
       (Replied (match l with
                 | [] => mkReply EveryoneDone true
                 | _ :: _ => mkReply (DailyCheck l) false
                 end), (ensureToday w).2)).
Proof.
  intros Hf Ha.
  assert (forall w, Panel.on_ping_remaining i w = (Replied (mkReply AdminsOnly true), w))
    as Hcmd.
  { intros w. unfold Panel.on_ping_remaining, Panel.ping_as. by rewrite Hf, Ha. }
  assert (forall w, Panel.on_button "btn_ping" i w = (Replied (mkReply AdminsOnly true), w))
    as Hbtn.
  { intros w. unfold Panel.on_button, Panel.ping_as. rewrite Hf. simpl. by rewrite Ha. }
  split; [exact Hcmd|]. split; [exact Hbtn|]. split.
  - intros w [Hk|Hk].
    + rewrite (panel_dispatch i w _ Hk). apply Hcmd.
    + rewrite (panel_dispatch_button i w _ Hk). apply Hbtn.
  - intros w. apply basic_ping_run.
Qed.

Lemma ping_remaining_gate_witness :
  Panel.interactionCreate (command "ping-remaining" bo)
    (worldOf (docOf "2024-05-02" ["1002"] (Some "R")))
  = (Replied (mkReply AdminsOnly true),
     (ensureToday (worldOf (docOf "2024-05-02" ["1002"] (Some "R")))).2).
Proof.
  apply (ping_remaining_gate (command "ping-remaining" bo) bo eq_refl eq_refl).
  left. reflexivity.
Defined.

(** C4, as worded, fails in the basic variant: Bo has no Manage Server
    capability, and his [ping-remaining] is answered with the public
    reminder that mentions the remaining members, not with a rejection. *)
Lemma basic_ping_remaining_not_gated :
  hasManageGuild bo = false /\
  fetchedMember (command "ping-remaining" bo) = Some bo /\
  Basic.on_ping_remaining (command "ping-remaining" bo)
    (worldOf (docOf "2024-05-02" ["1002"] (Some "R")))
  = (Replied (mkReply (DailyCheck [bo; zed]) false),
     mkWorld (docOf "2024-05-02" ["1002"] (Some "R"))
       (Json (docOf "2024-05-02" ["1002"] (Some "R"))) may2 1) /\
  (Basic.interactionCreate (command "ping-remaining" bo)
     (worldOf (docOf "2024-05-02" ["1002"] (Some "R")))).1
  = Replied (mkReply (DailyCheck [bo; zed]) false).
Proof. vm_compute. done. Qed.

(** ** The file follows the document *)

Lemma settles_keeps {A} (m : M A) : settles m -> keeps m.
Proof. intros Hm w _. apply Hm. Qed.

Lemma keeps_bind {A B} (m : M A) (k : A -> M B) :
  keeps m -> (forall a, keeps (k a)) -> keeps (bind m k).
Proof. intros Hm Hk w Hw. rewrite bind_eq. by apply Hk, Hm. Qed.

Lemma settles_bind {A B} (m : M A) (k : A -> M B) :
  settles m -> (forall a, keeps (k a)) -> settles (bind m k).
Proof. intros Hm Hk w. rewrite bind_eq. apply Hk, Hm. Qed.

Lemma settles_later {A B} (m : M A) (k : A -> M B) :
  (forall a, settles (k a)) -> settles (bind m k).
Proof. intros Hk w. rewrite bind_eq. apply Hk. Qed.

Lemma keeps_ret {A} (a : A) : keeps (ret a).
Proof. by intros w Hw. Qed.

Lemma keeps_reply c e : keeps (reply c e).
Proof. by intros w Hw. Qed.

Lemma keeps_getData : keeps getData.
Proof. by intros w Hw. Qed.

Lemma settles_saveData : settles saveData.
Proof. intros w. by left. Qed.

Lemma keeps_ensureToday : keeps ensureToday.
Proof.
  intros w Hw. destruct (decide (currentDate (data w) = clock w (tick w))).
  - by rewrite ensureToday_current.
  - rewrite ensureToday_stale by done. by left.
Qed.

Lemma keeps_isGangMember member : keeps (isGangMember member).
Proof. intros w Hw. by rewrite isGangMember_run. Qed.

Lemma keeps_summarize `{Locale} g : keeps (summarize g).
Proof. intros w Hw. rewrite summarize_state. by apply keeps_ensureToday. Qed.

Create HintDb sync discriminated.
#[local] Hint Resolve keeps_ret keeps_reply keeps_getData keeps_ensureToday
  keeps_isGangMember keeps_summarize settles_saveData : sync.
#[local] Hint Extern 2 (keeps (bind _ _)) => apply keeps_bind; [|intros] : sync.
#[local] Hint Extern 3 (keeps (bind _ _)) => apply settles_keeps : sync.
#[local] Hint Extern 2 (settles (bind saveData _)) => apply settles_bind; [|intros] : sync.
#[local] Hint Extern 3 (settles (bind _ _)) => apply settles_later; intros : sync.
#[local] Hint Extern 2 (keeps (if ?b then _ else _)) => destruct b : sync.
#[local] Hint Extern 2 (keeps (match ?x with _ => _ end)) => destruct x : sync.

Lemma keeps_refreshPanel `{Locale} i : keeps (Panel.refreshPanel i).
Proof. unfold Panel.refreshPanel, Panel.panelEmbed. auto 10 with sync. Qed.

#[local] Hint Resolve keeps_refreshPanel : sync.

Lemma basic_listener_keeps `{Locale} i : keeps (Basic.interactionCreate i).
Proof.
  unfold Basic.interactionCreate, Basic.on_setgangrole, Basic.on_force_reset,
    Basic.on_done, Basic.on_status, Basic.on_remaining, Basic.on_ping_remaining,
    pushCompleted.
  destruct (kind i); [|auto with sync..].
  apply keeps_bind; [auto with sync|intros _].
  repeat (match goal with |- keeps (if ?b then _ else _) => destruct b end);
    auto 20 with sync.
Qed.

Lemma panel_listener_keeps `{Locale} i : keeps (Panel.interactionCreate i).
Proof.
  unfold Panel.interactionCreate, Panel.on_button, Panel.on_setgangrole,
    Panel.on_force_reset, Panel.on_done, Panel.on_status, Panel.on_remaining,
    Panel.on_ping_remaining, Panel.on_panel, Panel.on_btn_done,
    Panel.on_btn_status, Panel.ping_as, Panel.panelEmbed, pushCompleted.
  apply keeps_bind; [auto with sync|intros _].
  destruct (kind i); [| |auto with sync].
  - repeat (match goal with |- keeps (if ?b then _ else _) => destruct b end);
      auto 20 with sync.
  - destruct (fetchedMember i); [|auto with sync].
    repeat (match goal with |- keeps (if ?b then _ else _) => destruct b end);
      auto 20 with sync.
Qed.

(** The process starts in sync, and every interaction keeps it so. *)
Lemma start_inSync w : inSync (start w).2.
Proof.
  unfold start. rewrite !bind_eq. apply keeps_ensureToday.
  unfold loadData. destruct (file w) eqn:Hfile; simpl.
  - by right.
  - by right.
  - left. simpl. done.
Qed.

(** ** Scenarios of the specification, run on the model *)

(** Fresh store, role R held by Bo, amy and Zed; amy invokes [done]. *)
Example scenario_amy_done :
  let w := mkWorld (docOf "2024-05-02" [] (Some "R")) NoFile may2 0 in
  let w' := (Panel.interactionCreate (command "done" amy) w).2 in
  completed (data w') = ["1002"] /\
  file w' = Json (data w') /\
  (summarize server w').1 = mkSummary (Some 3) 1 (Some 2) (Some [bo; zed]).
Proof. vm_compute. done. Qed.

(** Nobody done: the remaining members come out as amy, Bo, Zed. *)
Example scenario_order :
  remaining (summarize server (worldOf (docOf "2024-05-02" [] (Some "R")))).1
  = Some [amy; bo; zed].
Proof. vm_compute. done. Qed.

(** Equal names keep the roster order: Sam (2001) before Sam (2003). *)
Example scenario_ties :
  remaining (summarize twinServer (worldOf (docOf "2024-05-02" [] (Some "T")))).1
  = Some [alex; sam1; sam2].
Proof. vm_compute. done. Qed.

(** Yesterday's document meets today's clock. *)
Example scenario_rollover :
  let w := worldOf (docOf "2024-05-01" ["1001"; "1002"] (Some "R")) in
  data (ensureToday w).2 = docOf "2024-05-02" [] (Some "R") /\
  file (ensureToday w).2 = Json (docOf "2024-05-02" [] (Some "R")) /\
  data (ensureToday (ensureToday w).2).2 = data (ensureToday w).2.
Proof. vm_compute. done. Qed.

(** No role configured, three [done] calls from distinct members. *)
Example scenario_no_role :
  let w := worldOf (docOf "2024-05-02" [] None) in
  let w1 := (Basic.interactionCreate (command "done" bo) w).2 in
  let w2 := (Basic.interactionCreate (command "done" amy) w1).2 in
  let w3 := (Basic.interactionCreate (command "done" guest) w2).2 in
  (summarize server w3).1 = mkSummary None 3 None (Some []) /\
  (Basic.interactionCreate (command "remaining" bo) w3).1
    = Replied (mkReply EveryoneDone true).
Proof. vm_compute. done. Qed.

(** The backing file is gone: the process starts from the default document. *)
Example scenario_file_deleted :
  data (start (mkWorld (docOf "2024-04-30" ["1001"] (Some "R")) NoFile may2 0)).2
  = mkDoc "2024-05-02" [] None None None.
Proof. vm_compute. done. Qed.

(** * The listeners as sequences of atomic changes *)

Section Walks.
Context `{Locale} (v : Variant) (i : Interaction).

Lemma walks_ret {A} (a : A) : walks v i (ret a).
Proof. intros w. apply rtc_refl. Qed.

Lemma walks_reply c e : walks v i (reply c e).
Proof. intros w. apply rtc_refl. Qed.

Lemma walks_bind {A B} (m : M A) (k : A -> M B) :
  walks v i m -> (forall a, walks v i (k a)) -> walks v i (bind m k).
Proof.
  intros Hm Hk w. rewrite bind_eq. etrans; [apply Hm|apply Hk].
Qed.

Lemma walks_getData : walks v i getData.
Proof. intros w. apply rtc_refl. Qed.

Lemma walks_isGangMember member : walks v i (isGangMember member).
Proof. intros w. rewrite isGangMember_run. apply rtc_refl. Qed.

Lemma walks_ensureToday : walks v i ensureToday.
Proof.
  intros w. apply rtc_once.
  destruct (decide (currentDate (data w) = clock w (tick w))) as [He|Hne].
  - rewrite ensureToday_current by done. by apply change_read.
  - rewrite ensureToday_stale by done. by apply change_rollover.
Qed.

Lemma walks_summarize g : walks v i (summarize g).
Proof. intros w. rewrite summarize_state. apply walks_ensureToday. Qed.

Lemma walks_panelEmbed g : walks v i (Panel.panelEmbed g).
Proof. intros w. rewrite panelEmbed_state. apply walks_ensureToday. Qed.

Lemma walks_refreshPanel : walks v i (Panel.refreshPanel i).
Proof.
  unfold Panel.refreshPanel. apply walks_bind; [apply walks_getData|intros d].
  destruct (_ && _); [|apply walks_ret].
  destruct (panelReachable i); [|apply walks_ret].
  apply walks_bind; [apply walks_panelEmbed|intros; apply walks_ret].
Qed.

Lemma walks_ready msgGuild : walks v i (Panel.ready msgGuild).
Proof.
  unfold Panel.ready. apply walks_bind; [apply walks_getData|intros d].
  destruct (_ && _); [|apply walks_ret].
  destruct msgGuild; [|apply walks_ret].
  apply walks_bind; [apply walks_panelEmbed|intros; apply walks_ret].
Qed.

(** After [summarize], whatever the handler answers. *)
Lemma walks_answer g (k : Summary -> M Outcome) :
  (forall s w, (k s w).2 = w) -> walks v i (bind (summarize g) k).
Proof.
  intros Hk w. rewrite bind_eq, Hk. apply walks_summarize.
Qed.

Lemma isGangMember_true member w :
  (isGangMember member w).1 = true -> holdsRole (data w) member.
Proof.
  rewrite isGangMember_run. simpl. unfold holdsRole.
  destruct (gangRoleId (data w)) as [rid|]; [|by left]. simpl.
  destruct (String.eqb rid ""); [by left|].
  intros Hin%bool_decide_eq_true. right. by exists rid.
Qed.

(** The marking stretch shared by the three [done] paths: eligibility
    test, membership test, push and save. *)
Lemma walks_mark member (rest : M Outcome) (already : Doc -> M Outcome) :
  fetchedMember i = Some member ->
  kind i = ChatInputCommand "done" \/ (v = PanelBot /\ kind i = Button "btn_done") ->
  walks v i rest -> (forall d, walks v i (already d)) ->
  walks v i
    (ok <- isGangMember member ;;
     if negb ok then reply NoGangRole true
     else
       d <- getData ;;
       if bool_decide (m_id member ∈ completed d) then already d
       else pushCompleted (m_id member) ;; saveData ;; rest).
Proof.
  intros Hf Hk Hrest Halready w. rewrite bind_eq.
  pose proof (isGangMember_true member w) as Hh.
  rewrite isGangMember_run in *. simpl in *.
  destruct (match gangRoleId (data w) with Some _ => _ | None => _ end); simpl.
  2: apply rtc_refl.
  specialize (Hh eq_refl). rewrite bind_eq. simpl.
  case_bool_decide as Hin; [apply Halready|].
  rewrite !bind_eq. simpl.
  etrans; [|apply Hrest]. apply rtc_once.
  by apply (change_mark v i w member).
Qed.

End Walks.

Section WalksListeners.
Context `{Locale}.

(** The same stretch as the panel variant writes it. *)
Lemma walks_mark_panel i member (rest : M Outcome) :
  fetchedMember i = Some member ->
  kind i = ChatInputCommand "done" \/ kind i = Button "btn_done" ->
  walks PanelBot i rest ->
  walks PanelBot i
    (ok <- isGangMember member ;;
     if negb ok then reply NoGangRole true
     else
       d <- getData ;;
       (if negb (bool_decide (m_id member ∈ completed d)) then
          pushCompleted (m_id member) ;; saveData
        else ret tt) ;;
       rest).
Proof.
  intros Hf Hk Hrest w. rewrite bind_eq.
  pose proof (isGangMember_true member w) as Hh.
  rewrite isGangMember_run in *. simpl in *.
  destruct (match gangRoleId (data w) with Some _ => _ | None => _ end); simpl.
  2: apply rtc_refl.
  specialize (Hh eq_refl). rewrite bind_eq. simpl.
  case_bool_decide as Hin; simpl; rewrite bind_eq; simpl; [apply Hrest|].
  etrans; [|apply Hrest]. apply rtc_once.
  apply (change_mark PanelBot i w member); [done| |done|done].
  destruct Hk; [by left|by right].
Qed.

Lemma basic_handler_walks i name :
  kind i = ChatInputCommand name ->
  walks BasicBot i
    (if String.eqb name "setgangrole" then Basic.on_setgangrole i
     else if String.eqb name "force-reset" then Basic.on_force_reset i
     else if String.eqb name "done" then Basic.on_done i
     else if String.eqb name "status" then Basic.on_status i
     else if String.eqb name "remaining" then Basic.on_remaining i
     else if String.eqb name "ping-remaining" then Basic.on_ping_remaining i
     else ret Ignored).
Proof.
  intros Hk.
  destruct (String.eqb_spec name "setgangrole") as [->|_].
  { intros w. apply rtc_once. by apply change_role. }
  destruct (String.eqb_spec name "force-reset") as [->|_].
  { intros w. apply rtc_once. by apply change_reset. }
  destruct (String.eqb_spec name "done") as [->|_].
  { unfold Basic.on_done. destruct (fetchedMember i) as [member|] eqn:Hf;
      [|apply walks_ret].
    apply (walks_mark BasicBot i member
             (s <- summarize (guild i) ;; d' <- getData ;;
              reply (SubmissionRecorded (currentDate d') (progress_if_truthy s)) true)
             (fun d => reply (AlreadyDone (currentDate d)) true));
      [done|by left| |intros; apply walks_reply].
    apply walks_answer. done. }
  destruct (String.eqb_spec name "status") as [->|_].
  { apply walks_answer. done. }
  destruct (String.eqb_spec name "remaining") as [->|_].
  { apply walks_answer. intros s w. by destruct (remaining s) as [[|]|]. }
  destruct (String.eqb_spec name "ping-remaining") as [->|_].
  { apply walks_answer. intros s w. by destruct (remaining s) as [[|]|]. }
  apply walks_ret.
Qed.

Lemma basic_listener_walks i : walks BasicBot i (Basic.interactionCreate i).
Proof.
  unfold Basic.interactionCreate. destruct (kind i) as [name|id|] eqn:Hk;
    [|apply walks_ret..].
  apply walks_bind; [apply walks_ensureToday|intros _].
  by apply basic_handler_walks.
Qed.

Lemma panel_ping_walks i member : walks PanelBot i (Panel.ping_as member i).
Proof.
  unfold Panel.ping_as. destruct (negb _); [apply walks_reply|].
  apply walks_answer. intros s w. by destruct (remaining s) as [[|]|].
Qed.

Lemma panel_remaining_walks i : walks PanelBot i (Panel.on_remaining i).
Proof.
  apply walks_answer. intros s w. by destruct (remaining s) as [[|]|].
Qed.

Lemma panel_rest_walks i (c : string -> Content) :
  walks PanelBot i
    (Panel.refreshPanel i ;; d' <- getData ;; reply (c (currentDate d')) true).
Proof.
  apply walks_bind; [apply walks_refreshPanel|intros _].
  apply walks_bind; [apply walks_getData|intros; apply walks_reply].
Qed.

Lemma panel_command_walks i name :
  kind i = ChatInputCommand name ->
  walks PanelBot i
    (if String.eqb name "setgangrole" then Panel.on_setgangrole i
     else if String.eqb name "force-reset" then Panel.on_force_reset i
     else if String.eqb name "done" then Panel.on_done i
     else if String.eqb name "status" then Panel.on_status i
     else if String.eqb name "remaining" then Panel.on_remaining i
     else if String.eqb name "ping-remaining" then Panel.on_ping_remaining i
     else if String.eqb name "panel" then Panel.on_panel i
     else ret Ignored).
Proof.
  intros Hk.
  destruct (String.eqb_spec name "setgangrole") as [->|_].
  { intros w. unfold Panel.on_setgangrole. rewrite !bind_eq. simpl.
    etrans; [apply rtc_once; by apply change_role|].
    apply walks_refreshPanel. }
  destruct (String.eqb_spec name "force-reset") as [->|_].
  { intros w. unfold Panel.on_force_reset. rewrite !bind_eq. simpl.
    etrans; [apply rtc_once; by apply change_reset|].
    apply walks_refreshPanel. }
  destruct (String.eqb_spec name "done") as [->|_].
  { unfold Panel.on_done. destruct (fetchedMember i) as [member|] eqn:Hf;
      [|apply walks_ret].
    apply (walks_mark_panel i member
             (Panel.refreshPanel i ;; d' <- getData ;;
              reply (MarkedDone (currentDate d')) true));
      [done|by left|].
    apply (panel_rest_walks i MarkedDone). }
  destruct (String.eqb_spec name "status") as [->|_].
  { apply walks_answer. done. }
  destruct (String.eqb_spec name "remaining") as [->|_].
  { apply panel_remaining_walks. }
  destruct (String.eqb_spec name "ping-remaining") as [->|_].
  { unfold Panel.on_ping_remaining.
    destruct (fetchedMember i); [apply panel_ping_walks|apply walks_ret]. }
  destruct (String.eqb_spec name "panel") as [->|_]; [|apply walks_ret].
  unfold Panel.on_panel.
  apply walks_bind; [apply walks_panelEmbed|intros _].
  destruct (channelSend i) as [[msg ch]|] eqn:Hs; [|apply walks_ret].
  intros w. apply rtc_once. by apply (change_panel PanelBot i w msg ch).
Qed.

Lemma panel_button_walks i id :
  kind i = Button id -> walks PanelBot i (Panel.on_button id i).
Proof.
  intros Hk. unfold Panel.on_button.
  destruct (fetchedMember i) as [member|] eqn:Hf; [|apply walks_ret].
  destruct (String.eqb_spec id "btn_help") as [->|_]; [apply walks_reply|].
  destruct (String.eqb_spec id "btn_done") as [->|_].
  { apply (walks_mark_panel i member
             (Panel.refreshPanel i ;; d' <- getData ;;
              reply (MarkedDone (currentDate d')) true));
      [done|by right|].
    apply (panel_rest_walks i MarkedDone). }
  destruct (String.eqb_spec id "btn_status") as [->|_].
  { apply walks_answer. done. }
  destruct (String.eqb_spec id "btn_remaining") as [->|_];
    [apply panel_remaining_walks|].
  destruct (String.eqb_spec id "btn_ping") as [->|_];
    [apply panel_ping_walks|apply walks_ret].
Qed.

Lemma panel_listener_walks i : walks PanelBot i (Panel.interactionCreate i).
Proof.
  unfold Panel.interactionCreate.
  apply walks_bind; [apply walks_ensureToday|intros _].
  destruct (kind i) as [name|id|] eqn:Hk.
  - by apply panel_command_walks.
  - by apply panel_button_walks.
  - apply walks_ret.
Qed.

End WalksListeners.

(** ** What every interaction does to the store *)

(** X1. Whatever the interaction, the effect of a listener on the world
    is a sequence of atomic changes: clock reads, rollovers, and the one
    change its command stands for; so are the effects of the timer's
    [ensureToday] and of the panel refresh of [ready]. *)
Theorem interaction_changes `{Locale} (i : Interaction) (w : World) :
  rtc (Change BasicBot i) w (Basic.interactionCreate i w).2 /\
  rtc (Change PanelBot i) w (Panel.interactionCreate i w).2 /\
  (forall v, rtc (Change v i) w (ensureToday w).2) /\
  (forall v msgGuild, rtc (Change v i) w (Panel.ready msgGuild w).2).
Proof.
  split; [apply basic_listener_walks|].
  split; [apply panel_listener_walks|].
  split; [intros v; apply walks_ensureToday|].
  intros v g. apply walks_ready.
Qed.

Lemma changes_keep (I : World -> Prop) v i :
  (forall w w', Change v i w w' -> I w -> I w') ->
  forall w w', rtc (Change v i) w w' -> I w -> I w'.
Proof. intros Hstep w w'. induction 1; eauto. Qed.

(** Either listener, as one relation on worlds. *)
Lemma listener_changes `{Locale} i w w' :
  w' = (Basic.interactionCreate i w).2 \/ w' = (Panel.interactionCreate i w).2 ->
  exists v, rtc (Change v i) w w'.
Proof.
  intros [->| ->].
  - exists BasicBot. apply basic_listener_walks.
  - exists PanelBot. apply panel_listener_walks.
Qed.

Lemma change_NoDup v i w w' :
  Change v i w w' -> NoDup (completed (data w)) -> NoDup (completed (data w')).
Proof.
  destruct 1; simpl; try done; try constructor.
  intros Hnd. apply NoDup_app. split; [done|]. split.
  - intros x Hx ->%list_elem_of_singleton. done.
  - apply NoDup_singleton.
Qed.

(** X2. [completed] stays free of duplicates: through every interaction
    of either variant, through the timer's rollover check, and from the
    start of the process when the file is missing, unparseable or holds a
    duplicate-free list. *)
Theorem completed_stays_duplicate_free `{Locale} (i : Interaction) (w : World) :
  (NoDup (completed (data w)) ->
   NoDup (completed (data (Basic.interactionCreate i w).2)) /\
   NoDup (completed (data (Panel.interactionCreate i w).2)) /\
   NoDup (completed (data (ensureToday w).2))) /\
  ((forall d, file w = Json d -> NoDup (completed d)) ->
   NoDup (completed (data (start w).2))).
Proof.
  split.
  - intros Hnd. split; [|split].
    + eapply (changes_keep _ BasicBot i (change_NoDup BasicBot i));
        [apply basic_listener_walks|done].
    + eapply (changes_keep _ PanelBot i (change_NoDup PanelBot i));
        [apply panel_listener_walks|done].
    + by apply ensureToday_NoDup.
  - intros Hfile. unfold start. rewrite !bind_eq. apply ensureToday_NoDup.
    unfold loadData. destruct (file w) as [|raw|d] eqn:Hf; simpl.
    + constructor.
    + constructor.
    + by apply Hfile.
Qed.

Lemma change_paired v i w w' :
  Change v i w w' -> panelPaired (data w) -> panelPaired (data w').
Proof. destruct 1; simpl; done. Qed.

Lemma change_panel_frame v i w w' :
  v = BasicBot \/ kind i <> ChatInputCommand "panel" ->
  Change v i w w' ->
  panelMessageId (data w') = panelMessageId (data w) /\
  panelChannelId (data w') = panelChannelId (data w).
Proof. intros Hv. destruct 1; simpl; try done. destruct Hv; congruence. Qed.

(** X3. The panel references are kept in pairs: an interaction of either
    variant that starts with both or neither ends with both or neither;
    only the [panel] command of the panel variant changes them, the basic
    variant never does; and a process started without a readable file has
    neither. *)
Theorem panel_references_paired `{Locale} (i : Interaction) (w : World) :
  (panelPaired (data w) ->
   panelPaired (data (Basic.interactionCreate i w).2) /\
   panelPaired (data (Panel.interactionCreate i w).2)) /\
  (panelMessageId (data (Basic.interactionCreate i w).2) = panelMessageId (data w) /\
   panelChannelId (data (Basic.interactionCreate i w).2) = panelChannelId (data w)) /\
  (kind i <> ChatInputCommand "panel" ->
   panelMessageId (data (Panel.interactionCreate i w).2) = panelMessageId (data w) /\
   panelChannelId (data (Panel.interactionCreate i w).2) = panelChannelId (data w)) /\
  ((forall d, file w <> Json d) ->
   panelMessageId (data (start w).2) = None /\
   panelChannelId (data (start w).2) = None).
Proof.
  split; [|split; [|split] ].
  - intros Hp. split.
    + eapply (changes_keep (fun w => panelPaired (data w)) BasicBot i
                (change_paired BasicBot i));
        [apply basic_listener_walks|done].
    + eapply (changes_keep (fun w => panelPaired (data w)) PanelBot i
                (change_paired PanelBot i));
        [apply panel_listener_walks|done].
  - apply (changes_keep
             (fun w' => panelMessageId (data w') = panelMessageId (data w) /\
                        panelChannelId (data w') = panelChannelId (data w))
             BasicBot i) with (w := w);
      [|apply basic_listener_walks|done].
    intros w1 w2 Hc [<- <-]. apply (change_panel_frame BasicBot i); [by left|done].
  - intros Hk.
    apply (changes_keep
             (fun w' => panelMessageId (data w') = panelMessageId (data w) /\
                        panelChannelId (data w') = panelChannelId (data w))
             PanelBot i) with (w := w);
      [|apply panel_listener_walks|done].
    intros w1 w2 Hc [<- <-]. apply (change_panel_frame PanelBot i); [by right|done].
  - intros Hfile. unfold start. rewrite !bind_eq.
    destruct (ensureToday_frame (putData (loadData w).1 (loadData w).2).2)
      as (_ & _ & _ & _ & -> & ->).
    unfold loadData. destruct (file w) as [|raw|d] eqn:Hf; simpl; [done|done|].
    by destruct (Hfile d).
Qed.

Lemma change_role_frame v i w w' :
  kind i <> ChatInputCommand "setgangrole" ->
  Change v i w w' -> gangRoleId (data w') = gangRoleId (data w).
Proof. intros Hk. destruct 1; simpl; done. Qed.

(** X4. The configured role is changed by [setgangrole] and by nothing
    else: every other interaction of either variant, the rollover included,
    leaves [gangRoleId] as it was. *)
Theorem role_changes_only_by_setgangrole `{Locale} (i : Interaction) (w w' : World) :
  kind i <> ChatInputCommand "setgangrole" ->
  w' = (Basic.interactionCreate i w).2 \/ w' = (Panel.interactionCreate i w).2 ->
  gangRoleId (data w') = gangRoleId (data w).
Proof.
  intros Hk [v Hw]%listener_changes.
  apply (changes_keep (fun w1 => gangRoleId (data w1) = gangRoleId (data w)) v i)
    with (w := w); [|done|done].
  intros w1 w2 Hc <-. by apply (change_role_frame v i).
Qed.

Lemma role_changes_only_by_setgangrole_witness :
  gangRoleId (data (Panel.interactionCreate (command "force-reset" zed)
                      (worldOf (docOf "2024-05-01" ["1001"] (Some "R")))).2)
  = Some "R".
Proof.
  apply (role_changes_only_by_setgangrole (command "force-reset" zed)
           (worldOf (docOf "2024-05-01" ["1001"] (Some "R")))).
  - discriminate.
  - right. reflexivity.
Defined.

(** The identifiers an interaction may add to [completed]: the caller's,
    when the caller is eligible and the interaction is a [done]. *)
Definition mayMark (i : Interaction) (w : World) (x : string) : Prop :=
  exists member,
    fetchedMember i = Some member /\ x = m_id member /\
    holdsRole (data w) member /\
    (kind i = ChatInputCommand "done" \/ kind i = Button "btn_done").

Lemma change_marks v i w0 w w' :
  Change v i w w' ->
  (kind i <> ChatInputCommand "setgangrole" -> gangRoleId (data w) = gangRoleId (data w0)) /\
  (forall x, x ∈ completed (data w) -> x ∈ completed (data w0) \/ mayMark i w0 x) ->
  (kind i <> ChatInputCommand "setgangrole" -> gangRoleId (data w') = gangRoleId (data w0)) /\
  (forall x, x ∈ completed (data w') -> x ∈ completed (data w0) \/ mayMark i w0 x).
Proof.
  intros Hc [Hrole Hin].
  destruct Hc as [w _|w _|w _|w Hk|w member Hf Hk Hh Hnin|w msg ch _ _ _]; simpl.
  - done.
  - split; [done|]. intros x Hx. by apply elem_of_nil in Hx.
  - split; [done|]. intros x Hx. by apply elem_of_nil in Hx.
  - split; [by intros []|done].
  - split; [done|]. intros x [Hx| ->%list_elem_of_singleton]%elem_of_app; [by apply Hin|].
    right. exists member. split; [done|]. split; [done|]. split.
    + apply (holdsRole_role (data w)); [|done]. symmetry. apply Hrole.
      destruct Hk as [->|[_ ->] ]; discriminate.
    + destruct Hk as [?|[_ ?] ]; [by left|by right].
  - done.
Qed.

(** X5. An interaction marks nobody but its caller: every identifier in
    [completed] afterwards was there before, or is the identifier of the
    fetched caller, who is eligible on the document as it was, in a [done]
    command or a Done button press.  Both variants. *)
Theorem only_the_caller_is_marked `{Locale} (i : Interaction) (w w' : World) (x : string) :
  w' = (Basic.interactionCreate i w).2 \/ w' = (Panel.interactionCreate i w).2 ->
  x ∈ completed (data w') ->
  x ∈ completed (data w) \/ mayMark i w x.
Proof.
  intros [v Hw]%listener_changes.
  revert x.
  apply (changes_keep
           (fun w1 =>
              (kind i <> ChatInputCommand "setgangrole" ->
               gangRoleId (data w1) = gangRoleId (data w)) /\
              (forall x, x ∈ completed (data w1) ->
                         x ∈ completed (data w) \/ mayMark i w x)) v i)
    with (w := w) (w' := w'); [|done|].
  - intros w1 w2 Hc. by apply (change_marks v i w).
  - split; [done|]. intros x Hx. by left.
Qed.

Lemma only_the_caller_is_marked_witness :
  "1002" ∈ completed (data (worldOf (docOf "2024-05-02" ["1001"] (Some "R")))) \/
  mayMark (command "done" amy) (worldOf (docOf "2024-05-02" ["1001"] (Some "R"))) "1002".
Proof.
  apply (only_the_caller_is_marked (command "done" amy)
           (worldOf (docOf "2024-05-02" ["1001"] (Some "R")))
           (Basic.interactionCreate (command "done" amy)
              (worldOf (docOf "2024-05-02" ["1001"] (Some "R")))).2).
  - left. reflexivity.
  - vm_compute. set_solver.
Defined.

Lemma change_current v i w w' day :
  Change v i w w' -> current w day -> current w' day.
Proof.
  intros Hc [Hs Hd]. destruct Hc; split; simpl; first [done | apply Hs].
Qed.

(** X6. No handler leaves a stale date: while the clock stays on one
    day, the document is dated that day after every interaction of the
    panel variant and after every slash command of the basic variant,
    whatever its date before; the basic listener returns from other
    interactions without looking at the store. *)
Theorem interaction_leaves_document_current `{Locale}
    (i : Interaction) (w : World) (day : string) :
  steady w day ->
  current (Panel.interactionCreate i w).2 day /\
  (forall name, kind i = ChatInputCommand name ->
     current (Basic.interactionCreate i w).2 day) /\
  ((forall name, kind i <> ChatInputCommand name) ->
     Basic.interactionCreate i w = (Ignored, w)).
Proof.
  intros Hs. pose proof (ensureToday_makes_current w day Hs) as Hc0.
  split; [|split].
  - unfold Panel.interactionCreate. rewrite bind_eq.
    eapply (changes_keep (fun w => current w day) PanelBot i);
      [intros w1 w2 Hc; by apply (change_current PanelBot i)| |exact Hc0].
    destruct (kind i) as [name|id|] eqn:Hk.
    + by apply panel_command_walks.
    + by apply panel_button_walks.
    + apply rtc_refl.
  - intros name Hk. rewrite (basic_dispatch i w name Hk).
    eapply (changes_keep (fun w => current w day) BasicBot i);
      [intros w1 w2 Hc; by apply (change_current BasicBot i)| |exact Hc0].
    by apply basic_handler_walks.
  - intros Hk. unfold Basic.interactionCreate.
    destruct (kind i) as [name|id|]; [by destruct (Hk name)|done|done].
Qed.

Lemma interaction_leaves_document_current_witness :
  current (Panel.interactionCreate (command "status" bo)
             (worldOf (docOf "2024-05-01" ["1001"] (Some "R")))).2 "2024-05-02".
Proof.
  apply (interaction_leaves_document_current (command "status" bo)
           (worldOf (docOf "2024-05-01" ["1001"] (Some "R"))) "2024-05-02").
  intros n. reflexivity.
Defined.

Lemma change_synced v i w w' :
  Change v i w w' -> file w = Json (data w) -> file w' = Json (data w').
Proof. destruct 1; simpl; done. Qed.

(** X7. The file follows the document.  After module initialisation the
    file holds the document, or nothing is completed yet (a default
    document is not written until its first change); every interaction of
    either variant and the timer keep that, and once the file holds the
    document it holds it after every interaction. *)
Theorem file_follows_document `{Locale} (i : Interaction) (w : World) :
  inSync (start w).2 /\
  (inSync w ->
   inSync (Basic.interactionCreate i w).2 /\
   inSync (Panel.interactionCreate i w).2 /\
   inSync (ensureToday w).2) /\
  (file w = Json (data w) ->
   file (Basic.interactionCreate i w).2 = Json (data (Basic.interactionCreate i w).2) /\
   file (Panel.interactionCreate i w).2 = Json (data (Panel.interactionCreate i w).2)).
Proof.
  split; [apply start_inSync|]. split.
  - intros Hw. split; [by apply basic_listener_keeps|].
    split; [by apply panel_listener_keeps|by apply keeps_ensureToday].
  - intros Hw. split.
    + eapply (changes_keep (fun w => file w = Json (data w)) BasicBot i);
        [intros w1 w2 Hc; by apply (change_synced BasicBot i)
        |apply basic_listener_walks|done].
    + eapply (changes_keep (fun w => file w = Json (data w)) PanelBot i);
        [intros w1 w2 Hc; by apply (change_synced PanelBot i)
        |apply panel_listener_walks|done].
Qed.

(** * What the listeners answer *)

Lemma yields_bind {A B} (Q : B -> Prop) (m : M A) (k : A -> M B) :
  (forall a, yields Q (k a)) -> yields Q (bind m k).
Proof. intros Hk w. rewrite bind_eq. apply Hk. Qed.

(** Splits an unfolded handler into its branches, keeping the tests made
    on the way, and hands every final answer to [leaf]. *)
Ltac branches leaf :=
  repeat first
    [ apply yields_bind; intros
    | match goal with
      | |- yields _ (if ?b then _ else _) => destruct b eqn:?
      | |- yields _ (match ?x with _ => _ end) => destruct x eqn:?
      end ];
  try (intros ?; simpl; leaf).

Ltac unfold_basic :=
  unfold Basic.interactionCreate, Basic.on_setgangrole, Basic.on_force_reset,
    Basic.on_done, Basic.on_status, Basic.on_remaining, Basic.on_ping_remaining.

Ltac unfold_panel :=
  unfold Panel.interactionCreate, Panel.on_button, Panel.on_setgangrole,
    Panel.on_force_reset, Panel.on_done, Panel.on_status, Panel.on_remaining,
    Panel.on_ping_remaining, Panel.on_panel, Panel.on_btn_done,
    Panel.on_btn_status, Panel.ping_as.









(** The awaited call a listener does not guard failed. *)
Definition rejectedAwait (v : Variant) (i : Interaction) : Prop :=
  match v with
  | BasicBot => kind i = ChatInputCommand "done" /\ fetchedMember i = None
  | PanelBot =>
      (fetchedMember i = None /\
       ((exists id, kind i = Button id) \/
        kind i = ChatInputCommand "done" \/
        kind i = ChatInputCommand "ping-remaining")) \/
      (kind i = ChatInputCommand "panel" /\ channelSend i = None)
  end.

Ltac name_tests :=
  repeat match goal with
         | E : String.eqb _ _ = true |- _ => apply String.eqb_eq in E; subst
         end.

Lemma basic_throws `{Locale} i :
  yields (fun o => o = Threw -> rejectedAwait BasicBot i) (Basic.interactionCreate i).
Proof.
  unfold_basic. destruct (kind i) as [name|id|] eqn:Hk; [|by intros w..].
  branches ltac:(first [discriminate | intros _; name_tests; by split]).
Qed.

Lemma panel_throws `{Locale} i :
  yields (fun o => o = Threw -> rejectedAwait PanelBot i) (Panel.interactionCreate i).
Proof.
  unfold_panel. apply yields_bind; intros _.
  destruct (kind i) as [name|id|] eqn:Hk; [| |by intros w].
  - branches ltac:(first
      [ discriminate
      | intros _; name_tests; simpl;
        first [ left; split; [done|]; right; by (left + right)
              | right; by split ] ]).
  - branches ltac:(first
      [ discriminate
      | intros _; simpl; left; split; [done|]; left; by exists id ]).
Qed.

(** X9. A listener ends in an uncaught rejection exactly when an awaited
    call it does not guard is rejected: the member fetch of [done] in the
    basic variant; the member fetch of a button, of [done] and of
    [ping-remaining], and the [channel.send] of [panel], in the panel
    variant.  Nothing but the rollover check has touched the store by
    then: once for a failed member fetch, twice for a failed send (the
    panel embed is computed before the send). *)
Theorem listener_throws_iff `{Locale} (i : Interaction) (w : World) :
  ((Basic.interactionCreate i w).1 = Threw <-> rejectedAwait BasicBot i) /\
  ((Panel.interactionCreate i w).1 = Threw <-> rejectedAwait PanelBot i) /\
  ((Basic.interactionCreate i w).1 = Threw ->
     (Basic.interactionCreate i w).2 = (ensureToday w).2) /\
  ((Panel.interactionCreate i w).1 = Threw ->
     kind i <> ChatInputCommand "panel" ->
     (Panel.interactionCreate i w).2 = (ensureToday w).2) /\
  ((Panel.interactionCreate i w).1 = Threw ->
     kind i = ChatInputCommand "panel" ->
     (Panel.interactionCreate i w).2 = (ensureToday (ensureToday w).2).2).
Proof.
  split; [|split; [|split; [|split] ] ].
  - split; [apply basic_throws|].
    intros [Hk Hf]. rewrite (basic_dispatch i w _ Hk).
    change ((Basic.on_done i (ensureToday w).2).1 = Threw).
    unfold Basic.on_done. by rewrite Hf.
  - split; [apply panel_throws|].
    intros [[Hf [[id Hk]|[Hk|Hk] ] ]|[Hk Hs] ].
    + rewrite (panel_dispatch_button i w _ Hk). unfold Panel.on_button. by rewrite Hf.
    + rewrite (panel_dispatch i w _ Hk).
      change ((Panel.on_done i (ensureToday w).2).1 = Threw).
      unfold Panel.on_done. by rewrite Hf.
    + rewrite (panel_dispatch i w _ Hk).
      change ((Panel.on_ping_remaining i (ensureToday w).2).1 = Threw).
      unfold Panel.on_ping_remaining. by rewrite Hf.
    + rewrite (panel_dispatch i w _ Hk).
      change ((Panel.on_panel i (ensureToday w).2).1 = Threw).
      unfold Panel.on_panel. rewrite bind_eq. by rewrite Hs.
  - intros [Hk Hf]%basic_throws.
    rewrite (basic_dispatch i w _ Hk).
    change ((Basic.on_done i (ensureToday w).2).2 = (ensureToday w).2).
    unfold Basic.on_done. by rewrite Hf.
  - intros [[Hf [[id Hk]|[Hk|Hk] ] ]|[Hk Hs] ]%panel_throws Hnp; [| | |done].
    + rewrite (panel_dispatch_button i w _ Hk). unfold Panel.on_button. by rewrite Hf.
    + rewrite (panel_dispatch i w _ Hk).
      change ((Panel.on_done i (ensureToday w).2).2 = (ensureToday w).2).
      unfold Panel.on_done. by rewrite Hf.
    + rewrite (panel_dispatch i w _ Hk).
      change ((Panel.on_ping_remaining i (ensureToday w).2).2 = (ensureToday w).2).
      unfold Panel.on_ping_remaining. by rewrite Hf.
  - intros Ht Hk. revert Ht. rewrite (panel_dispatch i w _ Hk).
    change ((Panel.on_panel i (ensureToday w).2).1 = Threw ->
            (Panel.on_panel i (ensureToday w).2).2 = (ensureToday (ensureToday w).2).2).
    unfold Panel.on_panel. rewrite bind_eq, panelEmbed_state.
    destruct (channelSend i) as [[msg ch]|]; [discriminate|done].
Qed.

Definition onlyReminderPublic (o : Outcome) : Prop :=
  forall r, o = Replied r -> ephemeral r = false ->
    exists m l, content r = DailyCheck (m :: l).

Ltac reminder_leaf :=
  intros r Hr; first [discriminate Hr | injection Hr as <-];
  simpl; first [discriminate | intros _; eauto].

Lemma basic_only_reminder_public `{Locale} i :
  yields onlyReminderPublic (Basic.interactionCreate i).
Proof.
  unfold_basic. destruct (kind i) as [name|id|]; [|by intros w r..].
  unfold onlyReminderPublic. branches reminder_leaf.
Qed.

Lemma panel_only_reminder_public `{Locale} i :
  yields onlyReminderPublic (Panel.interactionCreate i).
Proof.
  unfold_panel. apply yields_bind; intros _.
  unfold onlyReminderPublic.
  destruct (kind i) as [name|id|]; [| |by intros w r]; branches reminder_leaf.
Qed.

(** X10. Every reply is ephemeral, seen by the caller alone, except the
    reminder that mentions the remaining members, which is never empty.
    Both variants, every interaction. *)
Theorem only_the_reminder_is_public `{Locale} (i : Interaction) (w : World) (r : Reply) :
  (Basic.interactionCreate i w).1 = Replied r \/
  (Panel.interactionCreate i w).1 = Replied r ->
  ephemeral r = false ->
  exists m l, content r = DailyCheck (m :: l).
Proof.
  intros [Hr|Hr].
  - by apply (basic_only_reminder_public i w).
  - by apply (panel_only_reminder_public i w).
Qed.

Lemma only_the_reminder_is_public_witness :
  exists m l, DailyCheck [bo; zed] = DailyCheck (m :: l).
Proof.
  apply (only_the_reminder_is_public (command "ping-remaining" zed)
           (worldOf (docOf "2024-05-02" ["1002"] (Some "R")))
           (mkReply (DailyCheck [bo; zed]) false)).
  - right. vm_compute. reflexivity.
  - reflexivity.
Defined.

Lemma getGangMembers_inv g w ms :
  (getGangMembers g w).1 = Some ms ->
  exists rid role,
    gangRoleId (data w) = Some rid /\ rid <> "" /\
    roles g !! rid = Some role /\ members role = ms.
Proof.
  unfold getGangMembers. run.
  destruct (gangRoleId (data w)) as [rid|]; simpl; [|done].
  destruct (String.eqb_spec rid ""); simpl; [done|].
  destruct (roles g !! rid) as [role|] eqn:Hl; simpl; [|done].
  intros [= <-]. by exists rid, role.
Qed.

(** A non-empty [remaining] comes from a role the guild has. *)
Lemma remaining_of_role `{Locale} g w l :
  remaining (summarize g w).1 = Some l -> l <> [] ->
  exists rid role,
    gangRoleId (data (summarize g w).2) = Some rid /\
    roles g !! rid = Some role /\
    forall m, m ∈ l <->
      m ∈ members role /\ m_id m ∉ completed (data (summarize g w).2).
Proof.
  rewrite summarize_unfold. cbv zeta.
  destruct (getGangMembers g (ensureToday w).2).1 as [ms|] eqn:Hms; simpl.
  2: { intros [= <-]. done. }
  intros [= <-] _.
  destruct (getGangMembers_inv _ _ _ Hms) as (rid & role & Hr & _ & Hl & <-).
  exists rid, role. split; [done|]. split; [done|].
  intros m. rewrite array_sort_perm, list_elem_of_filter.
  rewrite elem_of_list_to_set. tauto.
Qed.

Definition pingKind (v : Variant) (i : Interaction) : Prop :=
  match v with
  | BasicBot => kind i = ChatInputCommand "ping-remaining"
  | PanelBot =>
      (kind i = ChatInputCommand "ping-remaining" \/ kind i = Button "btn_ping") /\
      exists member, fetchedMember i = Some member /\ hasManageGuild member = true
  end.

Ltac id_tests :=
  repeat match goal with
         | E : String.eqb _ _ = true |- _ => apply String.eqb_eq in E; subst
         | E : negb _ = false |- _ => apply negb_false_iff in E
         end.

Lemma basic_reminder_kind `{Locale} i :
  yields (fun o => forall l e, o = Replied (mkReply (DailyCheck l) e) ->
                               pingKind BasicBot i)
    (Basic.interactionCreate i).
Proof.
  unfold_basic. destruct (kind i) as [name|id|] eqn:Hk; [|by intros w l e..].
  branches ltac:(intros l' e' Hr; first [discriminate Hr | id_tests; done]).
Qed.

Lemma panel_reminder_kind `{Locale} i :
  yields (fun o => forall l e, o = Replied (mkReply (DailyCheck l) e) ->
                               pingKind PanelBot i)
    (Panel.interactionCreate i).
Proof.
  unfold_panel. apply yields_bind; intros _.
  destruct (kind i) as [name|id|] eqn:Hk; [| |by intros w l e];
    branches ltac:(intros l' e' Hr;
                   first [ discriminate Hr
                         | id_tests; simpl; split; [by (left + right)|eauto] ]).
Qed.

Lemma ping_answer `{Locale} g (w : World) l e :
  ((s <- summarize g ;;
    match remaining s with
    | None => reply SetRoleFirst true
    | Some [] => reply EveryoneDone true
    | Some ((_ :: _) as l) => reply (DailyCheck l) false
    end) w).1 = Replied (mkReply (DailyCheck l) e) ->
  remaining (summarize g w).1 = Some l /\ l <> [] /\ e = false.
Proof.
  rewrite bind_eq. destruct (remaining (summarize g w).1) as [ [|m l']|]; simpl;
    intros Hr; simplify_eq; split; [done|]; split; [discriminate|done].
Qed.

Lemma ping_answer_state `{Locale} g (w : World) :
  ((s <- summarize g ;;
    match remaining s with
    | None => reply SetRoleFirst true
    | Some [] => reply EveryoneDone true
    | Some ((_ :: _) as l) => reply (DailyCheck l) false
    end) w).2 = (summarize g w).2.
Proof. rewrite bind_eq. by destruct (remaining _) as [ [|]|]. Qed.

(** X11. The reminder is sent for [ping-remaining] only (in the panel
    variant also for its button, and only to a caller with Manage Server);
    it is public, and it mentions exactly the members of the configured
    role whose identifier is not in [completed]: nobody who is done, nobody
    outside the role. *)
Theorem reminder_mentions_the_remaining `{Locale}
    (v : Variant) (i : Interaction) (w : World) (l : list Member) (e : bool) :
  (match v with
   | BasicBot => Basic.interactionCreate i w
   | PanelBot => Panel.interactionCreate i w
   end).1 = Replied (mkReply (DailyCheck l) e) ->
  let w' := (match v with
             | BasicBot => Basic.interactionCreate i w
             | PanelBot => Panel.interactionCreate i w
             end).2 in
  pingKind v i /\ e = false /\
  exists rid role,
    gangRoleId (data w') = Some rid /\
    roles (guild i) !! rid = Some role /\
    forall m, m ∈ l <-> m ∈ members role /\ m_id m ∉ completed (data w').
Proof.
  assert (forall (x : M Outcome) w1,
            (exists member, x = Panel.ping_as member i /\ hasManageGuild member = true) \/
            x = Basic.on_ping_remaining i ->
            (x w1).1 = Replied (mkReply (DailyCheck l) e) ->
            e = false /\
            exists rid role,
              gangRoleId (data (x w1).2) = Some rid /\
              roles (guild i) !! rid = Some role /\
              forall m, m ∈ l <->
                m ∈ members role /\ m_id m ∉ completed (data (x w1).2)) as Hping.
  { intros x w1 Hx.
    assert (x = (s <- summarize (guild i) ;;
                 match remaining s with
                 | None => reply SetRoleFirst true
                 | Some [] => reply EveryoneDone true
                 | Some ((_ :: _) as l) => reply (DailyCheck l) false
                 end)) as ->.
    { destruct Hx as [(member & -> & Ha)| ->]; [|done].
      unfold Panel.ping_as. by rewrite Ha. }
    intros (Hrem & Hne & ->)%ping_answer. split; [done|].
    rewrite ping_answer_state. by apply remaining_of_role. }
  destruct v; cbv zeta; intros Hr.
  - pose proof (basic_reminder_kind i w l e Hr) as Hk. split; [done|].
    simpl in Hk. rewrite (basic_dispatch i w _ Hk) in *.
    apply (Hping (Basic.on_ping_remaining i)); [by right|exact Hr].
  - pose proof (panel_reminder_kind i w l e Hr) as Hk. split; [done|].
    destruct Hk as [Hk (member & Hf & Ha)].
    assert ((Panel.interactionCreate i w) =
            Panel.ping_as member i (ensureToday w).2) as Heq.
    { destruct Hk as [Hk|Hk].
      - rewrite (panel_dispatch i w _ Hk).
        change (Panel.on_ping_remaining i (ensureToday w).2 =
                Panel.ping_as member i (ensureToday w).2).
        unfold Panel.on_ping_remaining. by rewrite Hf.
      - rewrite (panel_dispatch_button i w _ Hk). unfold Panel.on_button.
        by rewrite Hf. }
    rewrite Heq in *.
    apply (Hping (Panel.ping_as member i)); [left; by exists member|exact Hr].
Qed.

Lemma reminder_mentions_the_remaining_witness :
  pingKind PanelBot (command "ping-remaining" zed).
Proof.
  apply (reminder_mentions_the_remaining PanelBot (command "ping-remaining" zed)
           (worldOf (docOf "2024-05-02" ["1002"] (Some "R"))) [bo; zed] false).
  vm_compute. reflexivity.
Defined.

(** * Buttons and commands *)



(** * Single handlers *)

Lemma summarize_empty_role `{Locale} g w rid role :
  gangRoleId (data w) = Some rid -> rid <> "" -> roles g !! rid = Some role ->
  members role = [] ->
  (summarize g w).1 = mkSummary (Some 0) 0 (Some 0) (Some []).
Proof.
  intros Hr Hne Hl He. rewrite summarize_unfold. cbv zeta.
  destruct (ensureToday_frame w) as (_ & _ & _ & Hg & _).
  rewrite (getGangMembers_resolved _ _ rid role); [|by rewrite Hg|done|done].
  simpl. rewrite He. simpl. by rewrite Nat.min_0_r.
Qed.

(** X13. A configured role that nobody holds reads as no role in the
    [status] command of both variants, whose text is chosen by the
    truthiness of [total] and 0 is falsy: it shows the bare done count and
    the hint to set a role, with an empty preview.  The Status button of
    the panel tests [total !== null] and shows 0/0 with 0 remaining.  With
    any other total the two tests choose the same text. *)
Theorem empty_role_reads_as_no_role `{Locale}
    (i : Interaction) (w : World) (rid : string) (role : Role) :
  gangRoleId (data w) = Some rid -> rid <> "" ->
  roles (guild i) !! rid = Some role -> members role = [] ->
  let date := currentDate (data (ensureToday w).2) in
  (Basic.on_status i w).1
    = Replied (mkReply (TodaysProgress date (DoneOnly 0) []) true) /\
  (Panel.on_status i w).1
    = Replied (mkReply (TodaysProgress date (DoneOnly 0) []) true) /\
  (Panel.on_btn_status i w).1
    = Replied (mkReply (ProgressText (Counts 0 0 (Some 0))) true) /\
  (forall s, total s <> Some 0 -> progress_if_truthy s = progress_if_not_null s).
Proof.
  intros Hr Hne Hl He. cbv zeta.
  pose proof (summarize_empty_role (guild i) w rid role Hr Hne Hl He) as Hs.
  unfold Basic.on_status, Panel.on_status, Panel.on_btn_status.
  rewrite !bind_eq, Hs, summarize_state. simpl.
  repeat split.
  intros s Hs0. unfold progress_if_truthy, progress_if_not_null.
  by destruct (total s) as [ [|n]|].
Qed.

Lemma empty_role_reads_as_no_role_witness :
  (Panel.on_btn_status
     (mkInteraction (Button "btn_status")
        (mkGuild {[ "E" := mkRole "E" "Empty" [] ]}) (Some bo) gang true None)
     (worldOf (docOf "2024-05-02" ["1001"] (Some "E")))).1
  = Replied (mkReply (ProgressText (Counts 0 0 (Some 0))) true).
Proof.
  apply (empty_role_reads_as_no_role
           (mkInteraction (Button "btn_status")
              (mkGuild {[ "E" := mkRole "E" "Empty" [] ]}) (Some bo) gang true None)
           (worldOf (docOf "2024-05-02" ["1001"] (Some "E")))
           "E" (mkRole "E" "Empty" [])); [reflexivity|discriminate|reflexivity|reflexivity].
Defined.

(** X14. [setgangrole] stores the id of the chosen role and saves the
    document, in both variants and whatever the document was; it answers
    with the role's name.  From then on a member is eligible exactly when
    the member holds that role. *)
Theorem setgangrole_sets_the_role `{Locale} (i : Interaction) (w w' : World) (o : Outcome) :
  kind i = ChatInputCommand "setgangrole" ->
  (o, w') = Basic.interactionCreate i w \/ (o, w') = Panel.interactionCreate i w ->
  o = Replied (mkReply (RoleSet (role_name (optionRole i))) true) /\
  gangRoleId (data w') = Some (role_id (optionRole i)) /\
  file w' = Json (data w') /\
  (role_id (optionRole i) <> "" ->
   forall member,
     (isGangMember member w').1 = true <-> role_id (optionRole i) ∈ roles_cache member).
Proof.
  intros Hk Hw.
  assert (o = Replied (mkReply (RoleSet (role_name (optionRole i))) true) /\
          gangRoleId (data w') = Some (role_id (optionRole i)) /\
          file w' = Json (data w')) as (Ho & Hg & Hf).
  { destruct Hw as [Hw|Hw].
    - rewrite (basic_dispatch i w _ Hk) in Hw.
      change ((o, w') = Basic.on_setgangrole i (ensureToday w).2) in Hw.
      unfold Basic.on_setgangrole in Hw. rewrite !bind_eq in Hw. simpl in Hw.
      by injection Hw as -> ->.
    - rewrite (panel_dispatch i w _ Hk) in Hw.
      change ((o, w') = Panel.on_setgangrole i (ensureToday w).2) in Hw.
      unfold Panel.on_setgangrole in Hw. rewrite !bind_eq in Hw. simpl in Hw.
      injection Hw as -> ->. split; [done|].
      set (w2 := mkWorld _ _ _ _).
      pose proof (walks_refreshPanel PanelBot i w2) as Hwalk.
      split.
      + apply (changes_keep
                 (fun w1 => gangRoleId (data w1) = Some (role_id (optionRole i)))
                 PanelBot i) with (w := w2); [|exact Hwalk|done].
        intros w3 w4 Hc. by destruct Hc.
      + apply (changes_keep (fun w1 => file w1 = Json (data w1)) PanelBot i)
          with (w := w2); [|exact Hwalk|done].
        intros w3 w4 Hc. by apply (change_synced PanelBot i). }
  split; [done|]. split; [done|]. split; [done|].
  intros Hne member. rewrite isGangMember_run, Hg. simpl.
  destruct (String.eqb_spec (role_id (optionRole i)) ""); [done|].
  apply bool_decide_eq_true.
Qed.

Lemma setgangrole_sets_the_role_witness :
  gangRoleId (data (Panel.interactionCreate (command "setgangrole" zed)
                      (worldOf (docOf "2024-05-01" ["1001"] None))).2)
  = Some "R".
Proof.
  apply (setgangrole_sets_the_role (command "setgangrole" zed)
           (worldOf (docOf "2024-05-01" ["1001"] None))
           (Panel.interactionCreate (command "setgangrole" zed)
              (worldOf (docOf "2024-05-01" ["1001"] None))).2
           (Panel.interactionCreate (command "setgangrole" zed)
              (worldOf (docOf "2024-05-01" ["1001"] None))).1 eq_refl).
  right. by destruct (Panel.interactionCreate _ _).
Defined.

(** X15. The first [done] of a new day starts the list afresh: on a
    document dated another day than the clock's, an eligible caller's
    [done] leaves [completed] holding the caller's identifier alone, dated
    today and saved.  Both variants. *)
Theorem first_done_of_the_day `{Locale} (i : Interaction) (member : Member)
    (handler listener : M Outcome) (w : World) (day : string) :
  kind i = ChatInputCommand "done" ->
  fetchedMember i = Some member ->
  doneCommand i handler listener ->
  steady w day ->
  currentDate (data w) <> day ->
  holdsRole (data w) member ->
  completed (data (listener w).2) = [m_id member] /\
  currentDate (data (listener w).2) = day /\
  gangRoleId (data (listener w).2) = gangRoleId (data w) /\
  file (listener w).2 = Json (data (listener w).2).
Proof.
  intros Hk Hf Hv Hs Hne Hh.
  destruct (done_once i member handler listener Hk Hf Hv w day Hs Hh)
    as ([_ Hd1] & _ & _ & Hcase).
  rewrite ensureToday_stale in Hcase by (by rewrite Hs). simpl in Hcase.
  destruct Hcase as [(Hin & _)|(_ & Hd & Hfile)].
  - by apply elem_of_nil in Hin.
  - rewrite Hfile, Hd. simpl. by rewrite Hs.
Qed.

Lemma first_done_of_the_day_witness :
  completed (data (Basic.interactionCreate (command "done" amy)
                     (worldOf (docOf "2024-05-01" ["1001"; "1003"] (Some "R")))).2)
  = ["1002"].
Proof.
  assert (holdsRole (docOf "2024-05-01" ["1001"; "1003"] (Some "R")) amy) as Hh.
  { right. exists "R". split; [reflexivity|]. set_solver. }
  apply (first_done_of_the_day (command "done" amy) amy
           (Basic.on_done (command "done" amy))
           (Basic.interactionCreate (command "done" amy))
           (worldOf (docOf "2024-05-01" ["1001"; "1003"] (Some "R"))) "2024-05-02"
           eq_refl eq_refl (or_introl (conj eq_refl eq_refl))
           (fun _ => eq_refl) ltac:(discriminate) Hh).
Defined.

(** X16. The [panel] command, its message sent: the ids of the message
    and of its channel are recorded, the document is saved and the caller
    is told so; date, completed list and role are what the rollover checks
    of the listener and of the embed left. *)
Theorem panel_records_the_message `{Locale} (i : Interaction) (w : World)
    (msg ch : string) :
  kind i = ChatInputCommand "panel" ->
  channelSend i = Some (msg, ch) ->
  let w2 := (ensureToday (ensureToday w).2).2 in
  (Panel.interactionCreate i w).1 = Replied (mkReply PanelPosted true) /\
  data (Panel.interactionCreate i w).2 = setPanel msg ch (data w2) /\
  file (Panel.interactionCreate i w).2 = Json (setPanel msg ch (data w2)) /\
  (Basic.interactionCreate i w) = (Ignored, (ensureToday w).2).
Proof.
  intros Hk Hs. cbv zeta.
  rewrite (panel_dispatch i w _ Hk), (basic_dispatch i w _ Hk).
  change (
    (Panel.on_panel i (ensureToday w).2).1 = Replied (mkReply PanelPosted true) /\
    data (Panel.on_panel i (ensureToday w).2).2
      = setPanel msg ch (data (ensureToday (ensureToday w).2).2) /\
    file (Panel.on_panel i (ensureToday w).2).2
      = Json (setPanel msg ch (data (ensureToday (ensureToday w).2).2)) /\
    (Ignored, (ensureToday w).2) = (Ignored, (ensureToday w).2)).
  unfold Panel.on_panel. rewrite bind_eq, panelEmbed_state, Hs. done.
Qed.

Lemma panel_records_the_message_witness :
  data (Panel.interactionCreate
          (mkInteraction (ChatInputCommand "panel") server (Some zed) gang true
             (Some ("9001", "7001")))
          (worldOf (docOf "2024-05-02" ["1001"] (Some "R")))).2
  = mkDoc "2024-05-02" ["1001"] (Some "R") (Some "9001") (Some "7001").
Proof.
  apply (panel_records_the_message
           (mkInteraction (ChatInputCommand "panel") server (Some zed) gang true
              (Some ("9001", "7001")))
           (worldOf (docOf "2024-05-02" ["1001"] (Some "R"))) "9001" "7001"
           eq_refl eq_refl).
Defined.

(** X17. Module initialisation, the clock staying on one day.  A stored
    document dated today is taken as it is and the file is left alone; a
    stored document of another day is rolled over and written back; with
    the file missing or unparseable the process runs on the default
    document and writes nothing. *)
Theorem start_loads_or_defaults (w : World) (day : string) :
  steady w day ->
  (forall d, file w = Json d -> currentDate d = day ->
     data (start w).2 = d /\ file (start w).2 = Json d) /\
  (forall d, file w = Json d -> currentDate d <> day ->
     data (start w).2 = rolled day d /\ file (start w).2 = Json (rolled day d)) /\
  ((forall d, file w <> Json d) ->
     data (start w).2 = defaultDoc day /\ file (start w).2 = file w).
Proof.
  intros Hs. unfold start. rewrite !bind_eq. unfold loadData.
  split; [|split].
  - intros d Hf Hd. rewrite Hf. simpl.
    rewrite ensureToday_current; [done|]. simpl. by rewrite Hs.
  - intros d Hf Hd. rewrite Hf. simpl.
    rewrite ensureToday_stale; [simpl; by rewrite Hs|]. simpl. by rewrite Hs.
  - intros Hf. destruct (file w) as [|raw|d] eqn:Hfile.
    + simpl. rewrite ensureToday_current; [simpl; by rewrite Hs|].
      simpl. by rewrite !Hs.
    + simpl. rewrite ensureToday_current; [simpl; by rewrite Hs|].
      simpl. by rewrite !Hs.
    + by destruct (Hf d).
Qed.

Lemma start_loads_or_defaults_witness :
  data (start (mkWorld (docOf "" [] None) (Garbage "{") may2 0)).2
    = defaultDoc "2024-05-02" /\
  file (start (mkWorld (docOf "" [] None) (Garbage "{") may2 0)).2 = Garbage "{".
Proof.
  apply (start_loads_or_defaults (mkWorld (docOf "" [] None) (Garbage "{") may2 0)
           "2024-05-02" (fun _ => eq_refl)).
  intros d. discriminate.
Defined.

(** An interaction that is none of the four writing commands nor the Done
    button. *)
Definition readOnly (i : Interaction) : Prop :=
  kind i <> ChatInputCommand "setgangrole" /\
  kind i <> ChatInputCommand "force-reset" /\
  kind i <> ChatInputCommand "done" /\
  kind i <> ChatInputCommand "panel" /\
  kind i <> Button "btn_done".

Lemma change_read_only v i w0 w w' :
  readOnly i -> Change v i w w' ->
  (data w = data w0 /\ file w = file w0) \/
    (exists t, data w = rolled t (data w0) /\ file w = Json (data w)) ->
  (data w' = data w0 /\ file w' = file w0) \/
    (exists t, data w' = rolled t (data w0) /\ file w' = Json (data w')).
Proof.
  intros (N1 & N2 & N3 & N4 & N5) Hc Hw.
  destruct Hc as [w _|w _|w Hk|w Hk|w member _ Hk _ _|w msg ch _ Hk _]; simpl.
  - done.
  - right. exists (clock w (tick w)).
    destruct Hw as [[-> _]|(t & -> & _)]; done.
  - done.
  - done.
  - by destruct Hk as [?|[_ ?] ].
  - done.
Qed.

Lemma change_read_only_current v i w w' day :
  readOnly i -> Change v i w w' -> current w day ->
  data w' = data w /\ file w' = file w.
Proof.
  intros (N1 & N2 & N3 & N4 & N5) Hc [Hs Hd].
  destruct Hc as [w _|w Hne|w Hk|w Hk|w member _ Hk _ _|w msg ch _ Hk _]; simpl;
    try done.
  - destruct Hne. by rewrite Hs.
  - by destruct Hk as [?|[_ ?] ].
Qed.

(** X18. Reading never writes.  An interaction that is not [setgangrole],
    [force-reset], [done], [panel] or the Done button (so [status],
    [remaining], [ping-remaining], the other buttons, anything unknown)
    leaves document and file as they were, or as a rollover leaves them:
    role and panel references kept, nothing completed, written back.  On a
    document dated today, the clock staying on that day, it leaves both
    untouched.  Both variants. *)
Theorem reading_never_writes `{Locale} (i : Interaction) (w w' : World) :
  readOnly i ->
  w' = (Basic.interactionCreate i w).2 \/ w' = (Panel.interactionCreate i w).2 ->
  ((data w' = data w /\ file w' = file w) \/
   (exists t, data w' = rolled t (data w) /\ file w' = Json (data w'))) /\
  (forall day, current w day -> data w' = data w /\ file w' = file w).
Proof.
  intros Hro [v Hw]%listener_changes. split.
  - apply (changes_keep
             (fun w1 => (data w1 = data w /\ file w1 = file w) \/
                        (exists t, data w1 = rolled t (data w) /\ file w1 = Json (data w1)))
             v i) with (w := w); [|done|by left].
    intros w1 w2 Hc. by apply (change_read_only v i w).
  - intros day Hc.
    apply (changes_keep
             (fun w1 => current w1 day /\ data w1 = data w /\ file w1 = file w) v i)
      with (w := w) (w' := w'); [|done|done].
    intros w1 w2 Hch (Hc1 & <- & <-).
    split; [by apply (change_current v i w1)|].
    by apply (change_read_only_current v i w1 w2 day).
Qed.

Lemma reading_never_writes_witness :
  data (Panel.interactionCreate (command "status" bo)
          (worldOf (docOf "2024-05-02" ["1001"] (Some "R")))).2
    = docOf "2024-05-02" ["1001"] (Some "R") /\
  file (Panel.interactionCreate (command "status" bo)
          (worldOf (docOf "2024-05-02" ["1001"] (Some "R")))).2
    = Json (docOf "2024-05-02" ["1001"] (Some "R")).
Proof.
  apply (reading_never_writes (command "status" bo)
           (worldOf (docOf "2024-05-02" ["1001"] (Some "R")))
           (Panel.interactionCreate (command "status" bo)
              (worldOf (docOf "2024-05-02" ["1001"] (Some "R")))).2)
    with (day := "2024-05-02").
  - repeat split; discriminate.
  - right. reflexivity.
  - split; [intros n; reflexivity|reflexivity].
Defined.

(** * The sort, and marking against the remaining list *)

Section SortLaws.
Context {A : Type} (cmp : A -> A -> Z).

Let notAfter (a b : A) : Prop := (cmp a b <= 0)%Z.

Hypothesis cmp_total : forall a b, ~ notAfter a b -> notAfter b a.
Hypothesis cmp_trans : forall a b c, notAfter a b -> notAfter b c -> notAfter a c.

Lemma sort_insert_least x l : Forall (notAfter x) l -> sort_insert cmp x l = x :: l.
Proof.
  destruct 1 as [|y l Hxy _]; simpl; [done|].
  by rewrite bool_decide_eq_true_2.
Qed.

Lemma array_sort_of_sorted l : StronglySorted notAfter l -> array_sort cmp l = l.
Proof.
  induction 1 as [|x l Hs IH Hall]; simpl; [done|].
  rewrite IH. by apply sort_insert_least.
Qed.

Context (P : A -> Prop) `{!forall x, Decision (P x)}.

Lemma sort_insert_filter x l :
  StronglySorted notAfter l ->
  filter P (sort_insert cmp x l) =
    if decide (P x) then sort_insert cmp x (filter P l) else filter P l.
Proof.
  induction 1 as [|y l Hs IH Hall]; simpl.
  - rewrite filter_cons, filter_nil. by destruct (decide (P x)).
  - case_bool_decide as Hxy.
    + rewrite (filter_cons _ x). destruct (decide (P x)) as [Hx|Hx]; [|done].
      symmetry. apply sort_insert_least.
      apply Forall_forall. intros z [_ Hz]%list_elem_of_filter.
      apply elem_of_cons in Hz as [->|Hz]; [done|].
      apply (cmp_trans x y z); [done|].
      rewrite Forall_forall in Hall. by apply Hall.
    + rewrite !(filter_cons _ y), IH.
      destruct (decide (P y)) as [Hy|Hy]; [|done].
      destruct (decide (P x)) as [Hx|Hx]; [|done].
      simpl. by rewrite bool_decide_eq_false_2.
Qed.

Lemma array_sort_filter l :
  filter P (array_sort cmp l) = array_sort cmp (filter P l).
Proof.
  induction l as [|x l IH]; simpl; [done|].
  rewrite sort_insert_filter by (by apply array_sort_sorted).
  rewrite filter_cons. destruct (decide (P x)); [|done].
  simpl. by rewrite IH.
Qed.

End SortLaws.

Lemma summarize_current `{Locale} g w day :
  current w day ->
  (summarize g w).1 =
    match (getGangMembers g w).1 with
    | None => mkSummary None (length (completed (data w))) None (Some [])
    | Some ms =>
        let doneSet : gset string := list_to_set (completed (data w)) in
        let rest := array_sort byDisplayName (filter (fun m => m_id m ∉ doneSet) ms) in
        mkSummary (Some (length ms)) (Nat.min (size doneSet) (length ms))
          (Some (length rest)) (Some rest)
    end.
Proof.
  intros Hc. rewrite summarize_unfold. cbv zeta.
  destruct (ensureToday_quiet w day Hc) as (Hd & _).
  rewrite (getGangMembers_reads g (ensureToday w).2 w) by (by rewrite Hd).
  by rewrite Hd.
Qed.

(** X19. Marking takes the caller, and nobody else, off the remaining
    list.  On a document dated today, an eligible caller not yet marked
    invokes [done]: whatever the guild, the [remaining] of a [summarize]
    afterwards is the [remaining] of before without the caller, the others
    in the order they had, and [total] is the same.  Both variants,
    consistent collation. *)
Theorem done_takes_caller_off_remaining `{LocaleOrder}
    (i : Interaction) (member : Member) (handler listener : M Outcome)
    (w : World) (day : string) (g : Guild) (before : list Member) :
  kind i = ChatInputCommand "done" ->
  fetchedMember i = Some member ->
  doneCommand i handler listener ->
  current w day ->
  holdsRole (data w) member ->
  m_id member ∉ completed (data w) ->
  remaining (summarize g w).1 = Some before ->
  remaining (summarize g (listener w).2).1
    = Some (filter (fun m => m_id m <> m_id member) before) /\
  total (summarize g (listener w).2).1 = total (summarize g w).1.
Proof.
  intros Hk Hf Hv Hc Hh Hnin.
  destruct (done_once i member handler listener Hk Hf Hv w day (proj1 Hc) Hh)
    as (Hc1 & _ & _ & Hcase).
  destruct (ensureToday_quiet w day Hc) as (Hd0 & _).
  rewrite Hd0 in Hcase.
  destruct Hcase as [(Hin & _)|(_ & Hd1 & _)]; [done|].
  rewrite (summarize_current g w day Hc), (summarize_current g _ day Hc1).
  rewrite (getGangMembers_reads g (listener w).2 w) by (by rewrite Hd1).
  destruct (getGangMembers g w).1 as [ms|]; simpl.
  - intros [= <-]. split; [|done]. f_equal.
    rewrite (array_sort_filter byDisplayName).
    + f_equal. rewrite list_filter_filter. apply list_filter_iff.
      intros m. rewrite Hd1. simpl. set_solver.
    + intros a b. apply lc_total.
    + intros a b c. apply lc_trans.
  - by intros [= <-].
Qed.

Lemma done_takes_caller_off_remaining_witness :
  remaining (summarize server
               (Panel.interactionCreate (command "done" amy)
                  (worldOf (docOf "2024-05-02" ["1001"] (Some "R")))).2).1
  = Some (filter (fun m => m_id m <> m_id amy) [amy; zed]).
Proof.
  assert (holdsRole (docOf "2024-05-02" ["1001"] (Some "R")) amy) as Hh.
  { right. exists "R". split; [reflexivity|]. set_solver. }
  assert (m_id amy ∉ ["1001"]) as Hnin.
  { apply (bool_decide_unpack _). vm_compute. exact I. }
  apply (done_takes_caller_off_remaining (command "done" amy) amy
           (Panel.on_done (command "done" amy))
           (Panel.interactionCreate (command "done" amy))
           (worldOf (docOf "2024-05-02" ["1001"] (Some "R"))) "2024-05-02"
           server [amy; zed]
           eq_refl eq_refl (or_intror (conj eq_refl eq_refl))
           (conj (fun _ => eq_refl) eq_refl) Hh Hnin).
  vm_compute. reflexivity.
Defined.

(** X20. [force-reset] on any document, stale ones included: the clock
    staying on one day, the document comes out dated that day with nothing
    completed, role and panel references kept, and is written to the file;
    the caller is told the checklist has been reset.  Both variants. *)
Theorem force_reset_on_any_document `{Locale} (i : Interaction) (w : World) (day : string) :
  steady w day ->
  kind i = ChatInputCommand "force-reset" ->
  forall o w',
    (o, w') = Basic.interactionCreate i w \/ (o, w') = Panel.interactionCreate i w ->
    o = Replied (mkReply ChecklistReset true) /\
    data w' = rolled day (data w) /\
    file w' = Json (rolled day (data w)).
Proof.
  intros Hs Hk o w' Hw.
  destruct (ensureToday_makes_current w day Hs) as [Hs0 _].
  destruct (ensureToday_frame w) as (_ & _ & _ & Hg & Hpm & Hpc).
  assert (rolled day (data (ensureToday w).2) = rolled day (data w)) as Hroll.
  { unfold rolled. by rewrite Hg, Hpm, Hpc. }
  destruct Hw as [Hw|Hw].
  - rewrite (basic_dispatch i w _ Hk) in Hw.
    change ((o, w') = Basic.on_force_reset i (ensureToday w).2) in Hw.
    pose proof (basic_force_reset_state i _ day Hs0) as Hst.
    rewrite <- Hw in Hst. simpl in Hst. subst w'. simpl. rewrite Hroll.
    split; [|done].
    unfold Basic.on_force_reset in Hw. rewrite !bind_eq in Hw. simpl in Hw.
    by injection Hw as ->.
  - rewrite (panel_dispatch i w _ Hk) in Hw.
    change ((o, w') = Panel.on_force_reset i (ensureToday w).2) in Hw.
    destruct (panel_force_reset_state i _ day Hs0) as (Hd & Hf & _).
    rewrite <- Hw in Hd, Hf. simpl in Hd, Hf. rewrite Hd, Hf, Hroll.
    split; [|done].
    unfold Panel.on_force_reset in Hw. rewrite !bind_eq in Hw. simpl in Hw.
    by injection Hw as -> _.
Qed.

Lemma force_reset_on_any_document_witness :
  data (Basic.interactionCreate (command "force-reset" zed)
          (worldOf (docOf "2024-04-28" ["1001"; "1002"] (Some "R")))).2
  = docOf "2024-05-02" [] (Some "R").
Proof.
  apply (force_reset_on_any_document (command "force-reset" zed)
           (worldOf (docOf "2024-04-28" ["1001"; "1002"] (Some "R"))) "2024-05-02"
           (fun _ => eq_refl) eq_refl
           (Basic.interactionCreate (command "force-reset" zed)
              (worldOf (docOf "2024-04-28" ["1001"; "1002"] (Some "R")))).1
           (Basic.interactionCreate (command "force-reset" zed)
              (worldOf (docOf "2024-04-28" ["1001"; "1002"] (Some "R")))).2).
  left. by destruct (Basic.interactionCreate _ _).
Defined.

(** X21. What [done] answers an eligible caller on a document dated
    today.  The basic variant tells a caller already marked so, and
    otherwise shows the progress counted after the marking; the panel
    variant gives the same confirmation either way. *)
Theorem done_answers `{Locale} (i : Interaction) (member : Member) (w : World) (day : string) :
  fetchedMember i = Some member ->
  current w day ->
  holdsRole (data w) member ->
  (m_id member ∈ completed (data w) ->
     (Basic.on_done i w).1 = Replied (mkReply (AlreadyDone day) true)) /\
  (m_id member ∉ completed (data w) ->
     (Basic.on_done i w).1 =
       Replied (mkReply
         (SubmissionRecorded day
            (progress_if_truthy
               (summarize (guild i)
                  (saved (marked (m_id member) (data w)) w)).1)) true)) /\
  (Panel.on_done i w).1 = Replied (mkReply (MarkedDone day) true).
Proof.
  intros Hf Hc Hh. split; [|split].
  - intros Hin. rewrite (basic_done_again i member w Hf Hh Hin). simpl.
    by destruct Hc as [_ ->].
  - intros Hnin. unfold Basic.on_done. rewrite Hf, bind_eq.
    rewrite (isGangMember_holds _ _ Hh). simpl. rewrite bind_eq. simpl.
    rewrite bool_decide_eq_false_2 by done. rewrite !bind_eq. simpl.
    change (mkWorld (mkDoc (currentDate (data w)) (completed (data w) ++ [m_id member])
                       (gangRoleId (data w)) (panelMessageId (data w))
                       (panelChannelId (data w)))
              (Json (mkDoc (currentDate (data w)) (completed (data w) ++ [m_id member])
                       (gangRoleId (data w)) (panelMessageId (data w))
                       (panelChannelId (data w))))
              (clock w) (tick w))
      with (saved (marked (m_id member) (data w)) w).
    assert (current (saved (marked (m_id member) (data w)) w) day) as Hc2.
    { destruct Hc. by split. }
    destruct (summarize_quiet (guild i) _ day Hc2) as (-> & _). simpl.
    by destruct Hc as [_ ->].
  - assert (forall w2, current w2 day ->
              ((Panel.refreshPanel i ;; d' <- getData ;;
                reply (MarkedDone (currentDate d')) true) w2).1
              = Replied (mkReply (MarkedDone day) true)) as Hrest.
    { intros w2 Hc2. rewrite !bind_eq. simpl.
      destruct (refreshPanel_quiet i w2 day Hc2) as (-> & _).
      by destruct Hc2 as [_ ->]. }
    unfold Panel.on_done. rewrite Hf, bind_eq.
    rewrite (isGangMember_holds _ _ Hh). simpl. rewrite bind_eq. simpl.
    case_bool_decide as Hin; simpl; rewrite bind_eq; simpl.
    + by apply Hrest.
    + apply Hrest. destruct Hc. by split.
Qed.

Lemma done_answers_witness :
  (Panel.on_done (command "done" bo)
     (worldOf (docOf "2024-05-02" ["1001"] (Some "R")))).1
  = Replied (mkReply (MarkedDone "2024-05-02") true).
Proof.
  assert (holdsRole (docOf "2024-05-02" ["1001"] (Some "R")) bo) as Hh.
  { right. exists "R". split; [reflexivity|]. set_solver. }
  apply (done_answers (command "done" bo) bo
           (worldOf (docOf "2024-05-02" ["1001"] (Some "R"))) "2024-05-02"
           eq_refl (conj (fun _ => eq_refl) eq_refl) Hh).
Defined.
